(** * Verification of the LLM-server deployment orchestrator

    Shallow embedding of [tools/deploy_llm_server.py].

    The script talks to its host through a handful of library calls
    ([os.path.exists], [json.load], [subprocess.run],
    [subprocess.check_output], [open(...).write], [time.time],
    [time.sleep]) and writes one JSON object per line to standard
    output.  The host is kept abstract: a type of worlds and one oracle
    per library call.  The script itself is a computation in a state and
    exception monad over the world, the lines printed so far, the records
    handed to the [logging] module, and the shell commands issued.

    Modelling conventions.
    - [print(json.dumps(d))] appends the dictionary [d] to [printed]; the
      serialisation to text is not modelled, writing to standard output
      is assumed not to fail.
    - Asynchronous exceptions ([KeyboardInterrupt]) are not modelled;
      every exception the host raises is a subclass of [Exception].
    - [30 * (i + 1) / n] is computed over the rationals; the binary64
      quotient of the interpreter is replaced by the exact one. *)

From Stdlib Require Import ZArith QArith Qround List String Ascii Bool Lia.
From Stdlib Require Import Sorted PrimFloat.
Import ListNotations.

Set Warnings "-register-all".

Local Open Scope string_scope.
Local Open Scope Z_scope.

(** ** Python values *)

Module Py.

(** The values [json.load] can return, which are also the values the
    script prints. *)
Inductive value : Type :=
| VNone
| VBool (b : bool)
| VInt (z : Z)
| VFloat (f : float)
| VStr (s : string)
| VList (l : list value)
| VDict (d : list (string * value)).

(** A [dict] with string keys, in insertion order. *)
Definition dict : Type := list (string * value).

Fixpoint dict_get (d : dict) (k : string) : option value :=
  match d with
  | [] => None
  | (k', v) :: rest => if String.eqb k k' then Some v else dict_get rest k
  end.

(** [d[k] = v]: an existing key keeps its position, a new key goes last. *)
Fixpoint dict_set (d : dict) (k : string) (v : value) : dict :=
  match d with
  | [] => [(k, v)]
  | (k', v') :: rest =>
      if String.eqb k k' then (k', v) :: rest
      else (k', v') :: dict_set rest k v
  end.

(** [d.update(other)], the items of [other] taken in order. *)
Definition dict_update (d other : dict) : dict :=
  fold_left (fun acc kv => dict_set acc (fst kv) (snd kv)) other d.

(** The dictionary display [{**a, **b}]. *)
Definition dict_merge (a b : dict) : dict :=
  dict_update (dict_update [] a) b.

Definition keys (d : dict) : list string := map fst d.

(** [k in d] *)
Definition has_key (d : dict) (k : string) : bool :=
  existsb (String.eqb k) (keys d).

(** Name of the type of a value, as it appears in error messages. *)
Definition type_name (v : value) : string :=
  match v with
  | VNone => "NoneType"
  | VBool _ => "bool"
  | VInt _ => "int"
  | VFloat _ => "float"
  | VStr _ => "str"
  | VList _ => "list"
  | VDict _ => "dict"
  end.

(** Exceptions.  [SystemExit] is the only one outside [Exception]. *)
Inductive exn : Type :=
| CalledProcessError (cmd : string) (returncode : Z) (output stderr : string)
| Exception (msg : string)
| KeyError (key : string)
| TypeError (msg : string)
| ZeroDivisionError (msg : string)
| HostError (cls msg : string)
| SystemExit (code : Z).

Definition is_Exception (e : exn) : bool :=
  match e with
  | SystemExit _ => false
  | _ => true
  end.

Definition is_CalledProcessError (e : exn) : bool :=
  match e with
  | CalledProcessError _ _ _ _ => true
  | _ => false
  end.

(** [int(q)]: truncation towards zero. *)
Definition int_of (q : Q) : Z := Z.quot (Qnum q) (Z.pos (Qden q)).

(** Decimal rendering of an [int]. *)
Fixpoint digits (fuel : nat) (n : Z) (acc : string) : string :=
  match fuel with
  | O => acc
  | S fuel' =>
      let acc' := String (ascii_of_N (Z.to_N (48 + n mod 10))) acc in
      if n <? 10 then acc' else digits fuel' (n / 10) acc'
  end.

Definition str_int (z : Z) : string :=
  if z <? 0 then "-" ++ digits (S (Z.to_nat (Z.log2 (- z)))) (- z) EmptyString
  else digits (S (Z.to_nat (Z.log2 z))) z EmptyString.

(** The characters of a [str], each as a one-character [str].  Strings
    are UTF-8 byte sequences here, so a continuation byte (10xxxxxx)
    stays with the character it belongs to. *)
Definition is_continuation (c : ascii) : bool :=
  let n := N_of_ascii c in ((128 <=? n) && (n <? 192))%N.

Fixpoint chars_from (cur : string) (s : string) : list string :=
  match s with
  | EmptyString => [cur]
  | String c rest =>
      if is_continuation c then chars_from (cur ++ String c EmptyString) rest
      else cur :: chars_from (String c EmptyString) rest
  end.

Definition chars (s : string) : list string :=
  match s with
  | EmptyString => []
  | String c rest => chars_from (String c EmptyString) rest
  end.

(** [iter(v)] run to the end: the items a [for] loop over [v] visits. *)
Definition iter (v : value) : exn + list value :=
  match v with
  | VList l => inr l
  | VStr s => inr (map VStr (chars s))
  | VDict d => inr (map VStr (keys d))
  | _ => inl (TypeError ("'" ++ type_name v ++ "' object is not iterable"))
  end.

(** [len(v)]. *)
Definition len (v : value) : exn + Z :=
  match v with
  | VList l => inr (Z.of_nat (List.length l))
  | VStr s => inr (Z.of_nat (List.length (chars s)))
  | VDict d => inr (Z.of_nat (List.length d))
  | _ => inl (TypeError ("object of type '" ++ type_name v ++ "' has no len()"))
  end.

End Py.

(** ** The host *)

Import Py.

(** What a library call reports when it fails: the class of the exception
    and its message.  It is raised as [HostError]. *)
Definition host_error : Type := (string * string)%type.

(** What the shell answers to a command line: exit status, standard
    output and standard error, or the failure to run it at all. *)
Definition answer : Type := (host_error + Z * string * string)%type.

Definition exited_zero (a : answer) : bool :=
  match a with
  | inr (status, _, _) => status =? 0
  | inl _ => false
  end.

(** [subprocess.CompletedProcess], with the streams captured as text. *)
Record CompletedProcess : Type := {
  args : string;
  returncode : Z;
  stdout : string;
  stderr : string
}.

Record Host : Type := {
  world : Type;
  (** [os.path.exists(path)] *)
  os_path_exists : string -> world -> bool * world;
  (** [with open(path, 'r') as f: json.load(f)] *)
  json_load_path : string -> world -> (host_error + value) * world;
  (** [time.time()] *)
  time_time : world -> float * world;
  (** [time.sleep(seconds)] *)
  time_sleep : Z -> world -> world;
  (** the shell run of a command line with both streams captured as
      text *)
  shell : string -> world -> answer * world;
  (** [subprocess.check_output([sys.executable, '--version'], text=True)]:
      the captured output, or the exception raised (a non-zero exit
      status included) *)
  check_output_python_version : world -> (host_error + string) * world;
  (** [with open(path, 'w') as f: f.write(content)] *)
  write_path : string -> string -> world -> option host_error * world;
  (** [repr] of a float, a list or a dict *)
  repr : value -> string;
  (** [str] of a [CalledProcessError] with the given command and status *)
  str_CalledProcessError : string -> Z -> string;
  (** [str.strip()] *)
  strip : string -> string
}.

(** ** The monad of the script *)

(** What one run has done so far: the world it left, the dictionaries
    printed to standard output (oldest first), the records handed to the
    [logging] module as level and message, and the command lines given
    to the shell, each with the answer it got. *)
Record state (H : Host) : Type := {
  now : world H;
  printed : list value;
  logged : list (string * string);
  issued : list (string * answer)
}.

Arguments now {H} _.
Arguments printed {H} _.
Arguments logged {H} _.
Arguments issued {H} _.

Inductive result (A : Type) : Type :=
| Ok (a : A)
| Raise (e : exn).

Arguments Ok {A} _.
Arguments Raise {A} _.

Definition M (H : Host) (A : Type) : Type := state H -> result A * state H.

Section Monad.

Context {H : Host}.

Definition ret {A} (a : A) : M H A := fun st => (Ok a, st).

Definition raise {A} (e : exn) : M H A := fun st => (Raise e, st).

Definition bind {A B} (m : M H A) (k : A -> M H B) : M H B :=
  fun st =>
    match m st with
    | (Ok a, st') => k a st'
    | (Raise e, st') => (Raise e, st')
    end.

(** [try: body  except Exception as e: handler] *)
Definition try_except {A} (body : M H A) (handler : exn -> M H A) : M H A :=
  fun st =>
    match body st with
    | (Ok a, st') => (Ok a, st')
    | (Raise e, st') =>
        if is_Exception e then handler e st' else (Raise e, st')
    end.

(** [try: body  except subprocess.CalledProcessError as e: handler] *)
Definition try_except_CalledProcessError {A}
    (body : M H A) (handler : exn -> M H A) : M H A :=
  fun st =>
    match body st with
    | (Ok a, st') => (Ok a, st')
    | (Raise e, st') =>
        if is_CalledProcessError e then handler e st' else (Raise e, st')
    end.

(** A value or the exception an expression evaluates to. *)
Definition eval {A} (r : exn + A) : M H A :=
  match r with
  | inl e => raise e
  | inr a => ret a
  end.

(** A library call that cannot fail. *)
Definition call {A} (f : world H -> A * world H) : M H A :=
  fun st =>
    let (a, w) := f (now st) in
    (Ok a, {| now := w; printed := printed st;
              logged := logged st; issued := issued st |}).

(** A library call that can fail. *)
Definition call_may_fail {A} (f : world H -> (host_error + A) * world H)
  : M H A :=
  fun st =>
    let (r, w) := f (now st) in
    let st' := {| now := w; printed := printed st;
                  logged := logged st; issued := issued st |} in
    match r with
    | inl (cls, msg) => (Raise (HostError cls msg), st')
    | inr a => (Ok a, st')
    end.

End Monad.

Declare Scope script_scope.
Delimit Scope script_scope with script.

Notation "x <- m ;; k" := (bind m (fun x => k))
  (at level 61, m at next level, right associativity) : script_scope.
Notation "m ;; k" := (bind m (fun _ => k))
  (at level 61, right associativity) : script_scope.

Local Open Scope script_scope.

(** ** Library calls as the script uses them *)

Section Library.

Context {H : Host}.

(** [print(json.dumps(d, ensure_ascii=False))] *)
Definition print (d : dict) : M H unit :=
  fun st =>
    (Ok tt, {| now := now st; printed := printed st ++ [VDict d];
               logged := logged st; issued := issued st |}).

(** [sys.stdout.flush()] *)
Definition flush : M H unit := ret tt.

(** [logger.warning(msg)]: a record for the [logging] module, which
    writes it to standard error. *)
Definition logger_warning (msg : string) : M H unit :=
  fun st =>
    (Ok tt, {| now := now st; printed := printed st;
               logged := logged st ++ [("WARNING", msg)];
               issued := issued st |}).

(** [sys.exit(code)] *)
Definition sys_exit {A} (code : Z) : M H A := raise (SystemExit code).

(** What [subprocess.run(..., check=check)] makes of the shell's answer:
    with [check], a non-zero exit status raises [CalledProcessError]
    holding the command, the status and both captured streams. *)
Definition completed (command : string) (check : bool) (a : answer)
  : result CompletedProcess :=
  match a with
  | inl (cls, msg) => Raise (HostError cls msg)
  | inr (status, out, err) =>
      if check && negb (status =? 0) then
        Raise (CalledProcessError command status out err)
      else
        Ok {| args := command; returncode := status;
              stdout := out; stderr := err |}
  end.

(** [subprocess.run(command, shell=True, capture_output=True, text=True,
    check=check)].  The command and the shell's answer are recorded in
    [issued]. *)
Definition subprocess_run (command : string) (check : bool)
  : M H CompletedProcess :=
  fun st =>
    let (a, w) := shell H command (now st) in
    (completed command check a,
     {| now := w; printed := printed st; logged := logged st;
        issued := issued st ++ [(command, a)] |}).

(** [with open(path, 'w') as f: f.write(content)] *)
Definition open_write (path content : string) : M H unit :=
  fun st =>
    let (r, w) := write_path H path content (now st) in
    let st' := {| now := w; printed := printed st;
                  logged := logged st; issued := issued st |} in
    match r with
    | Some (cls, msg) => (Raise (HostError cls msg), st')
    | None => (Ok tt, st')
    end.

(** [d[k]] *)
Definition getitem (d : dict) (k : string) : M H value :=
  match dict_get d k with
  | Some v => ret v
  | None => raise (KeyError k)
  end.

(** [{**a, **b}] where [b] is any value: only a mapping unpacks. *)
Definition unpack_merge (a : dict) (b : value) : M H dict :=
  match b with
  | VDict d => ret (dict_merge a d)
  | _ => raise (TypeError ("'" ++ type_name b ++ "' object is not a mapping"))
  end.

(** [a / b] on two [int]s *)
Definition truediv (a b : Z) : M H Q :=
  if b =? 0 then raise (ZeroDivisionError "division by zero")
  else ret (inject_Z a / inject_Z b)%Q.

(** [str(v)], as a replacement field of an f-string renders it. *)
Definition format (v : value) : string :=
  match v with
  | VStr s => s
  | VInt z => str_int z
  | VBool true => "True"
  | VBool false => "False"
  | VNone => "None"
  | _ => repr H v
  end.

(** [str(e)] *)
Definition str_exn (e : exn) : string :=
  match e with
  | CalledProcessError cmd status _ _ => str_CalledProcessError H cmd status
  | Exception msg => msg
  | KeyError k => "'" ++ k ++ "'"
  | TypeError msg => msg
  | ZeroDivisionError msg => msg
  | HostError _ msg => msg
  | SystemExit code => str_int code
  end.

(** Truth value of a [str]. *)
Definition nonempty (s : string) : bool :=
  match s with
  | EmptyString => false
  | _ => true
  end.

End Library.

Arguments format H v : clear implicits.
Arguments str_exn H e : clear implicits.

(** ** The script *)

Record LLMServerDeployer : Type := {
  config_path : string;
  config : dict
}.

Definition default_config : dict :=
  [ ("llm_type", VStr "ollama");
    ("models", VList [VStr "llama2:7b"]);
    ("port", VInt 11434);
    ("host", VStr "0.0.0.0");
    ("install_path", VStr "/opt/llm");
    ("data_path", VStr "/opt/llm/data") ].

Definition dquote : string := String (ascii_of_nat 34) EmptyString.

Section Script.

Context {H : Host}.

Definition load_config (config_path : string) : M H dict :=
  present <- call (os_path_exists H config_path);;
  loaded <-
    (if present : bool then
       try_except
         (config <- call_may_fail (json_load_path H config_path);;
          merged <- unpack_merge default_config config;;
          ret (Some merged))
         (fun e =>
            logger_warning
              ("Ошибка загрузки конфига: " ++ str_exn H e
                 ++ ". Используем дефолтный.");;
            ret None)
     else ret None);;
  match loaded with
  | Some merged => ret merged
  | None => ret default_config
  end.

Definition send_progress (progress : Z) (message : string) : M H unit :=
  timestamp <- call (time_time H);;
  print [ ("type", VStr "progress");
          ("progress", VInt progress);
          ("message", VStr message);
          ("timestamp", VFloat timestamp) ];;
  flush.

Definition send_log (level message : string) : M H unit :=
  timestamp <- call (time_time H);;
  print [ ("type", VStr "log");
          ("level", VStr level);
          ("message", VStr message);
          ("timestamp", VFloat timestamp) ];;
  flush.

Definition run_command (command : string) (check : bool)
  : M H CompletedProcess :=
  send_log "info" ("Выполнение команды: " ++ command);;
  try_except_CalledProcessError
    (result <- subprocess_run command check;;
     (if nonempty (stdout result)
      then send_log "info" ("STDOUT: " ++ stdout result) else ret tt);;
     (if nonempty (stderr result)
      then send_log "warn" ("STDERR: " ++ stderr result) else ret tt);;
     ret result)
    (fun e =>
       send_log "error" ("Ошибка выполнения команды: " ++ str_exn H e);;
       raise e).

Definition check_system_requirements (self : LLMServerDeployer) : M H bool :=
  send_progress 5 "Проверка системных требований";;
  python_ok <-
    try_except
      (python_version <- call_may_fail (check_output_python_version H);;
       send_log "info" ("Python версия: " ++ strip H python_version);;
       ret true)
      (fun e =>
         send_log "error" ("Python не найден: " ++ str_exn H e);;
         ret false);;
  if negb python_ok then ret false else
  try_except
    (run_command "curl --version" true;;
     send_log "info" "curl доступен";;
     ret true)
    (fun _ =>
       send_log "warn" "curl не найден, попытка установки";;
       try_except
         (run_command "sudo apt-get update && sudo apt-get install -y curl"
                      true;;
          ret true)
         (fun e =>
            send_log "error" ("Не удалось установить curl: " ++ str_exn H e);;
            ret false)).

Definition install_ollama (self : LLMServerDeployer) : M H bool :=
  send_progress 20 "Установка Ollama";;
  try_except
    (result <- run_command "ollama --version" false;;
     if returncode result =? 0 then
       send_log "info" "Ollama уже установлен";;
       ret true
     else
       send_log "info" "Загрузка и установка Ollama";;
       run_command "curl -fsSL https://ollama.ai/install.sh | sh" true;;
       run_command "ollama --version" true;;
       send_log "info" "Ollama успешно установлен";;
       ret true)
    (fun e =>
       send_log "error" ("Ошибка установки Ollama: " ++ str_exn H e);;
       ret false).

Definition service_content (host port : value) : string :=
  "[Unit]
Description=Ollama Server
After=network-online.target

[Service]
ExecStart=/usr/local/bin/ollama serve
User=ollama
Group=ollama
Restart=always
RestartSec=3
Environment=" ++ dquote ++ "OLLAMA_HOST=" ++ format H host ++ ":"
    ++ format H port ++ dquote ++ "

[Install]
WantedBy=default.target
".

Definition start_ollama_service (self : LLMServerDeployer) : M H bool :=
  send_progress 40 "Запуск сервиса Ollama";;
  try_except
    (send_log "info" "Запуск Ollama сервера";;
     host <- getitem (config self) "host";;
     port <- getitem (config self) "port";;
     let content := service_content host port in
     run_command
       "sudo useradd -r -s /bin/false -m -d /usr/share/ollama ollama" false;;
     open_write "/tmp/ollama.service" content;;
     run_command "sudo mv /tmp/ollama.service /etc/systemd/system/" true;;
     run_command "sudo systemctl daemon-reload" true;;
     run_command "sudo systemctl enable ollama" true;;
     run_command "sudo systemctl start ollama" true;;
     call (fun w => (tt, time_sleep H 5 w));;
     run_command "sudo systemctl status ollama" true;;
     send_log "info" "Ollama сервис запущен";;
     ret true)
    (fun e =>
       send_log "error" ("Ошибка запуска Ollama: " ++ str_exn H e);;
       ret false).

(** One turn of the loop of [download_models], for the item [model] at
    index [i]: [true] when the body ran to its end, [false] when the
    handler returned [False]. *)
Definition download_model (self : LLMServerDeployer) (i : Z) (model : value)
  : M H bool :=
  try_except
    (models <- getitem (config self) "models";;
     n <- eval (len models);;
     quotient <- truediv (30 * (i + 1)) n;;
     let progress := (60 + quotient)%Q in
     send_progress (int_of progress) ("Загрузка модели " ++ format H model);;
     send_log "info" ("Загрузка модели: " ++ format H model);;
     run_command ("ollama pull " ++ format H model) true;;
     send_log "info" ("Модель " ++ format H model ++ " загружена");;
     ret true)
    (fun e =>
       send_log "error"
         ("Ошибка загрузки модели " ++ format H model ++ ": " ++ str_exn H e);;
       ret false).

(** The loop over [enumerate(items)], from index [i] on. *)
Fixpoint download_loop (self : LLMServerDeployer) (i : Z) (items : list value)
  : M H bool :=
  match items with
  | [] => ret true
  | model :: rest =>
      continue <- download_model self i model;;
      if continue : bool then download_loop self (i + 1) rest else ret false
  end.

Definition download_models (self : LLMServerDeployer) : M H bool :=
  send_progress 60 "Загрузка моделей LLM";;
  models <- getitem (config self) "models";;
  items <- eval (iter models);;
  download_loop self 0 items.

Definition verify_installation (self : LLMServerDeployer) : M H bool :=
  send_progress 95 "Проверка установки";;
  try_except
    (port <- getitem (config self) "port";;
     run_command ("curl -f http://localhost:" ++ format H port ++ "/api/tags")
                 true;;
     result <- run_command "ollama list" true;;
     send_log "info" ("Установленные модели:
" ++ stdout result);;
     send_log "info" "Установка успешно завершена";;
     ret true)
    (fun e =>
       send_log "error" ("Ошибка проверки установки: " ++ str_exn H e);;
       ret false).

Definition deploy (self : LLMServerDeployer) : M H unit :=
  try_except
    (send_progress 0 "Начало развертывания LLM сервера";;
     ok <- check_system_requirements self;;
     (if negb ok then raise (Exception "Системные требования не выполнены")
      else ret tt);;
     ok <- install_ollama self;;
     (if negb ok then raise (Exception "Ошибка установки Ollama")
      else ret tt);;
     ok <- start_ollama_service self;;
     (if negb ok then raise (Exception "Ошибка запуска сервиса")
      else ret tt);;
     ok <- download_models self;;
     (if negb ok then raise (Exception "Ошибка загрузки моделей")
      else ret tt);;
     ok <- verify_installation self;;
     (if negb ok then raise (Exception "Ошибка проверки установки")
      else ret tt);;
     send_progress 100 "Развертывание завершено успешно";;
     print [ ("type", VStr "complete");
             ("success", VBool true);
             ("message", VStr "LLM сервер успешно развернут");
             ("config", VDict (config self)) ])
    (fun e =>
       let message := str_exn H e in
       timestamp <- call (time_time H);;
       print [ ("type", VStr "error");
               ("success", VBool false);
               ("message", VStr message);
               ("timestamp", VFloat timestamp) ];;
       sys_exit 1).

(** [LLMServerDeployer(config_path)] *)
Definition init (config_path : string) : M H LLMServerDeployer :=
  config <- load_config config_path;;
  ret {| config_path := config_path; config := config |}.

(** The configuration path [main] takes from [sys.argv], whose first
    entry is the script's own name. *)
Definition path_of (argv : list string) : string :=
  match argv with
  | _ :: path :: _ => path
  | _ => "./llm_config.json"
  end.

Definition main (argv : list string) : M H unit :=
  let config_path := path_of argv in
  deployer <- init config_path;;
  deploy deployer.

(** Exit status of the interpreter: 0 when [main] returns, the code of a
    [SystemExit], 1 after an uncaught exception. *)
Definition exit_status (r : result unit) : Z :=
  match r with
  | Ok _ => 0
  | Raise (SystemExit code) => code
  | Raise _ => 1
  end.

Definition initial (w : world H) : state H :=
  {| now := w; printed := []; logged := []; issued := [] |}.

(** One run of the script from the world [w]: its exit status and what it
    left behind. *)
Definition run (argv : list string) (w : world H) : Z * state H :=
  let (r, st) := main argv (initial w) in (exit_status r, st).

End Script.

(** ** A scripted host

    A host whose answers are fixed in advance, to run the script on:
    [file] is what loading the configuration file gives ([None] when
    there is no file), [status] the exit status of each command line.
    Commands print nothing; the world counts the commands run. *)

Definition scripted (file : option (host_error + value)) (status : string -> Z)
  : Host :=
  {| world := nat;
     os_path_exists := fun _ w =>
       (match file with Some _ => true | None => false end, w);
     json_load_path := fun path w =>
       (match file with
        | Some r => r
        | None => inl ("FileNotFoundError", "No such file or directory")
        end, w);
     time_time := fun w => (PrimFloat.zero, w);
     time_sleep := fun _ w => w;
     shell := fun command w =>
       (inr (status command, EmptyString, EmptyString), S w);
     check_output_python_version := fun w => (inr "Python 3.10.12", w);
     write_path := fun _ _ w => (None, w);
     repr := fun _ => "...";
     str_CalledProcessError := fun cmd rc =>
       "Command '" ++ cmd ++ "' returned non-zero exit status "
         ++ str_int rc ++ ".";
     strip := fun s => s |}.

(** Every command succeeds. *)
Definition all_zero (command : string) : Z := 0.

(** Every command succeeds but [failing], which exits with status 1. *)
Definition all_but (failing : string) (command : string) : Z :=
  if String.eqb command failing then 1 else 0.

(** The configuration [main] resolves from the world [w], and the state
    it leaves for [deploy]. *)
Definition resolve {H : Host} (argv : list string) (w : world H)
  : dict * state H :=
  match load_config (path_of argv) (initial w) with
  | (Ok cfg, st) => (cfg, st)
  | (Raise _, st) => (default_config, st)
  end.

(** The deployer [main] builds. *)
Definition deployer_of {H : Host} (argv : list string) (w : world H)
  : LLMServerDeployer :=
  {| config_path := path_of argv; config := fst (resolve argv w) |}.

(** ** Scripted hosts for the runs below *)

Definition argv0 : list string := ["deploy_llm_server.py"; "llm_config.json"].

(** Scenario B of the specification, with one more key. *)
Definition overlay_B : dict :=
  [ ("models", VList [VStr "llama2:7b"; VStr "mistral:7b"]);
    ("port", VInt 9000);
    ("owner", VStr "ops") ].

Definition host_B : Host := scripted (Some (inr (VDict overlay_B))) all_zero.

(** A configuration file that is not JSON. *)
Definition host_malformed : Host :=
  scripted (Some (inl ("JSONDecodeError",
                       "Expecting value: line 1 column 1 (char 0)")))
           all_zero.

(** No configuration file, every command succeeds. *)
Definition host_plain : Host := scripted None all_zero.

(** Three models, the pull of the second fails. *)
Definition host_second_pull_fails : Host :=
  scripted (Some (inr (VDict [("models",
                               VList [VStr "a"; VStr "b"; VStr "c"])])))
           (all_but "ollama pull b").



Definition no_output : Z * string * string := (0, EmptyString, EmptyString).

Definition plain_deployer : LLMServerDeployer :=
  {| config_path := "./llm_config.json"; config := default_config |}.

Definition failed_b : string * answer :=
  ("ollama pull b", inr (1, EmptyString, EmptyString)).



(** ** Reading the output and the command trace *)

(** The ["type"] of a printed line. *)
Definition type_of (line : value) : option string :=
  match line with
  | VDict d =>
      match dict_get d "type" with
      | Some (VStr t) => Some t
      | _ => None
      end
  | _ => None
  end.

Definition has_type (t : string) (line : value) : bool :=
  match type_of line with
  | Some t' => String.eqb t t'
  | None => false
  end.

(** The level of a log line. *)
Definition level_of (line : value) : option string :=
  match line with
  | VDict d =>
      if has_type "log" line then
        match dict_get d "level" with
        | Some (VStr l) => Some l
        | _ => None
        end
      else None
  | _ => None
  end.

Definition is_log (line : value) : bool :=
  match level_of line with
  | Some _ => true
  | None => false
  end.

(** The value a progress line carries. *)
Definition progress_of (line : value) : option Z :=
  match line with
  | VDict d =>
      if has_type "progress" line then
        match dict_get d "progress" with
        | Some (VInt p) => Some p
        | _ => None
        end
      else None
  | _ => None
  end.

Definition is_progress (line : value) : bool :=
  match progress_of line with
  | Some _ => true
  | None => false
  end.

(** A progress or log line. *)
Definition is_report (line : value) : bool := is_progress line || is_log line.

(** A terminal line. *)
Definition is_terminal (line : value) : bool :=
  has_type "complete" line || has_type "error" line.

(** The configuration a completion line carries. *)
Definition config_of (line : value) : option dict :=
  match line with
  | VDict d =>
      if has_type "complete" line then
        match dict_get d "config" with
        | Some (VDict c) => Some c
        | _ => None
        end
      else None
  | _ => None
  end.

(** The progress values of the lines of an output, in order. *)
Fixpoint progress_values (lines : list value) : list Z :=
  match lines with
  | [] => []
  | line :: rest =>
      match progress_of line with
      | Some p => p :: progress_values rest
      | None => progress_values rest
      end
  end.

(** A warning-level log line. *)
Definition is_warning_log (line : value) : bool :=
  match level_of line with
  | Some l => String.eqb l "warn" || String.eqb l "warning"
  | None => false
  end.

(** [s] starts with [p]. *)
Fixpoint starts_with (p s : string) : bool :=
  match p with
  | EmptyString => true
  | String a p' =>
      match s with
      | EmptyString => false
      | String b s' => Ascii.eqb a b && starts_with p' s'
      end
  end.

(** A command that pulls a model. *)
Definition is_pull (command : string) : bool :=
  starts_with "ollama pull " command.

(** The value [int(60 + 30 * (i + 1) / n)] announced for model [i] of [n]. *)
Definition model_progress (n i : Z) : Z :=
  int_of (60 + inject_Z (30 * (i + 1)) / inject_Z n)%Q.

(** The integers [i, i+1, ..., i+k-1]. *)
Fixpoint range (i : Z) (k : nat) : list Z :=
  match k with
  | O => []
  | S k' => i :: range (i + 1) k'
  end.

(** The items a loop over the configured models visits. *)
Definition model_items (self : LLMServerDeployer) : list value :=
  match dict_get (config self) "models" with
  | Some models =>
      match iter models with
      | inr items => items
      | inl _ => []
      end
  | None => []
  end.

(** The progress values of a full run over [n] models, in the order of
    the stages. *)
Definition timeline (n : nat) : list Z :=
  [0; 5; 20; 40; 60] ++ map (model_progress (Z.of_nat n)) (range 0 n)
    ++ [95; 100].

(** ** What a computation adds to the output and to the command trace *)

Local Open Scope list_scope.

(** The result is not a [SystemExit]: an [except Exception] above it
    catches whatever it raises. *)
Definition no_exit {A} (r : result A) : Prop :=
  match r with
  | Ok _ => True
  | Raise e => is_Exception e = true
  end.

Definition not_pull (c : string * answer) : Prop := is_pull (fst c) = false.

Definition logs (lines : list value) : Prop :=
  Forall (fun l => is_log l = true) lines.

Definition reports (lines : list value) : Prop :=
  Forall (fun l => is_report l = true) lines.

(** [st'] continues [st]: it has printed the lines [lines] and issued the
    commands [cmds] since. *)
Definition continues {H : Host} (st st' : state H)
    (lines : list value) (cmds : list (string * answer)) : Prop :=
  printed st' = printed st ++ lines /\ issued st' = issued st ++ cmds.

(** [m] never exits; [R] relates its result, the lines it printed and the
    commands it issued. *)
Definition emits {H : Host} {A} (m : M H A)
    (R : result A -> list value -> list (string * answer) -> Prop) : Prop :=
  forall st,
    no_exit (fst (m st)) /\
    exists lines cmds,
      continues st (snd (m st)) lines cmds /\ R (fst (m st)) lines cmds.

(** A progress line for [p] followed by log lines. *)
Definition announced (p : Z) (lines : list value) : Prop :=
  exists line rest,
    lines = line :: rest /\ progress_of line = Some p /\ logs rest.

(** [m] announces the progress value [p], then prints log lines only and
    pulls no model. *)
Definition stage {H : Host} {A} (p : Z) (m : M H A) : Prop :=
  emits m (fun _ lines cmds => announced p lines /\ Forall not_pull cmds).

(** [l] is an initial segment of [l']. *)
Definition prefix_of {A} (l l' : list A) : Prop := exists rest, l' = l ++ rest.

(** The command that pulls [model]. *)
Definition pull_command (H : Host) (model : value) : string :=
  ("ollama pull " ++ format H model)%string.

(** A pull that did not exit with status 0. *)
Definition failed_pull (c : string * answer) : Prop :=
  is_pull (fst c) = true /\ exited_zero (snd c) = false.

(** Every stage of [deploy] returns [True], one after the other, from the
    state [st] on. *)
Definition stages_succeed {H : Host} (self : LLMServerDeployer) (st : state H)
  : Prop :=
  exists s0 s1 s2 s3 s4 s5,
    send_progress 0 "Начало развертывания LLM сервера" st = (Ok tt, s0) /\
    check_system_requirements self s0 = (Ok true, s1) /\
    install_ollama self s1 = (Ok true, s2) /\
    start_ollama_service self s2 = (Ok true, s3) /\
    download_models self s3 = (Ok true, s4) /\
    verify_installation self s4 = (Ok true, s5).

(** The turns of the loop of [download_models] over [items] from index
    [i] on, [n] models being configured: the result of the loop, the
    lines it printed and the commands it issued.  A turn announces its
    progress value and pulls its model; the loop goes on to the next
    item after a pull that exited with status 0 and returns [False]
    after any other. *)
Inductive turns (H : Host) (n : Z)
  : Z -> list value -> result bool -> list value -> list (string * answer)
    -> Prop :=
| turns_done i :
    turns H n i [] (Ok true) [] []
| turns_fail i model rest ls a :
    announced (model_progress n i) ls ->
    exited_zero a = false ->
    turns H n i (model :: rest) (Ok false) ls [(pull_command H model, a)]
| turns_next i model rest ls a r ls' cs' :
    announced (model_progress n i) ls ->
    exited_zero a = true ->
    turns H n (i + 1) rest r ls' cs' ->
    turns H n i (model :: rest) r (ls ++ ls') ((pull_command H model, a) :: cs').

(** The completion line of a deployer. *)
Definition complete_line (self : LLMServerDeployer) : value :=
  VDict [ ("type", VStr "complete");
          ("success", VBool true);
          ("message", VStr "LLM сервер успешно развернут");
          ("config", VDict (config self)) ].

(** The error line with the given message and timestamp. *)
Definition error_line (message : string) (timestamp : float) : value :=
  VDict [ ("type", VStr "error");
          ("success", VBool false);
          ("message", VStr message);
          ("timestamp", VFloat timestamp) ].

(** The statements of the [try] block of [deploy]. *)
Definition deploy_steps {H : Host} (self : LLMServerDeployer) : M H unit :=
  send_progress 0 "Начало развертывания LLM сервера";;
  ok <- check_system_requirements self;;
  (if negb ok then raise (Exception "Системные требования не выполнены")
   else ret tt);;
  ok <- install_ollama self;;
  (if negb ok then raise (Exception "Ошибка установки Ollama")
   else ret tt);;
  ok <- start_ollama_service self;;
  (if negb ok then raise (Exception "Ошибка запуска сервиса")
   else ret tt);;
  ok <- download_models self;;
  (if negb ok then raise (Exception "Ошибка загрузки моделей")
   else ret tt);;
  ok <- verify_installation self;;
  (if negb ok then raise (Exception "Ошибка проверки установки")
   else ret tt);;
  send_progress 100 "Развертывание завершено успешно";;
  print [ ("type", VStr "complete");
          ("success", VBool true);
          ("message", VStr "LLM сервер успешно развернут");
          ("config", VDict (config self)) ].

(** The [except] clause of [deploy]. *)
Definition deploy_handler {H : Host} (e : exn) : M H unit :=
  let message := str_exn H e in
  timestamp <- call (time_time H);;
  print [ ("type", VStr "error");
          ("success", VBool false);
          ("message", VStr message);
          ("timestamp", VFloat timestamp) ];;
  sys_exit 1.

(** ** Reading log lines and command sequences *)

(** The message of a printed line. *)
Definition message_of (line : value) : option string :=
  match line with
  | VDict d =>
      match dict_get d "message" with
      | Some (VStr m) => Some m
      | _ => None
      end
  | _ => None
  end.

(** Level and message of a log line. *)
Definition log_of (line : value) : option (string * string) :=
  match level_of line, message_of line with
  | Some l, Some m => Some (l, m)
  | _, _ => None
  end.

(** The commands [cmds] run one after the other, each checked: [trace] is
    what was issued and [r] what came of it.  The first command that does
    not exit with status 0 ends the sequence with [False]; when all have
    exited with status 0 the result is [True]. *)
Fixpoint chain (cmds : list string) (trace : list (string * answer))
    (r : result bool) : Prop :=
  match cmds with
  | [] => trace = [] /\ r = Ok true
  | cmd :: cmds' =>
      exists a rest,
        trace = (cmd, a) :: rest /\
        if exited_zero a then chain cmds' rest r
        else rest = [] /\ r = Ok false
  end.

(** [deploy], called in [st], has failed in the state [s] with the message
    [message]: it printed the error line after what [s] holds, issued
    nothing after [s], and left through [sys.exit(1)]. *)
Definition failed_at {H : Host} (self : LLMServerDeployer)
    (st s : state H) (message : string) : Prop :=
  exists t,
    fst (deploy self st) = Raise (SystemExit 1) /\
    printed (snd (deploy self st)) = printed s ++ [error_line message t] /\
    issued (snd (deploy self st)) = issued s.

(** A host like [h] on which the interpreter cannot report its version. *)
Definition without_python (h : Host) : Host :=
  {| world := world h;
     os_path_exists := os_path_exists h;
     json_load_path := json_load_path h;
     time_time := time_time h;
     time_sleep := time_sleep h;
     shell := shell h;
     check_output_python_version := fun w =>
       (inl ("FileNotFoundError"%string,
             "[Errno 2] No such file or directory"%string), w);
     write_path := write_path h;
     repr := repr h;
     str_CalledProcessError := str_CalledProcessError h;
     strip := strip h |}.

(** The configuration file holds a JSON array. *)
Definition host_array : Host :=
  scripted (Some (inr (VList [VStr "llama2:7b"%string]))) all_zero.

(** The service does not report an active state. *)
Definition host_service_down : Host :=
  scripted None (all_but "sudo systemctl status ollama"%string).

(** The deployer [main] builds where the service does not come up, and
    the states its stages leave. *)
Definition down_deployer : LLMServerDeployer :=
  @deployer_of host_service_down argv0 O.

Definition down_after (k : nat) : state host_service_down :=
  let st := snd (@resolve host_service_down argv0 O) in
  let s0 := snd (send_progress 0 "Начало развертывания LLM сервера"%string st) in
  let s1 := snd (check_system_requirements down_deployer s0) in
  let s2 := snd (install_ollama down_deployer s1) in
  let s3 := snd (start_ollama_service down_deployer s2) in
  match k with
  | 0 => s0 | 1 => s1 | 2 => s2 | _ => s3
  end%nat.

(** A deployer whose models are a number. *)
Definition number_deployer : LLMServerDeployer :=
  {| config_path := "./llm_config.json"%string;
     config := [("models"%string, VInt 5)] |}.

(** * Proofs *)

(** ** The embedding at work *)

Example str_int_port : str_int 11434 = "11434"%string.
Proof. reflexivity. Qed.

Example str_int_negative : str_int (-7) = "-7"%string.
Proof. reflexivity. Qed.

Example chars_are_code_points :
  chars "aЖb" = ["a"; "Ж"; "b"]%string.
Proof. reflexivity. Qed.

Example merge_keeps_positions :
  dict_merge [("a", VInt 1); ("b", VInt 2)]%string
             [("c", VInt 3); ("a", VInt 4)]%string
  = [("a", VInt 4); ("b", VInt 2); ("c", VInt 3)]%string.
Proof. reflexivity. Qed.

Example iter_int_raises :
  iter (VInt 5) = inl (TypeError "'int' object is not iterable").
Proof. reflexivity. Qed.

Example iter_str_visits_characters :
  iter (VStr "ab") = inr [VStr "a"; VStr "b"].
Proof. reflexivity. Qed.

Example model_progress_thirds :
  map (model_progress 3) [0; 1; 2] = [70; 80; 90].
Proof. reflexivity. Qed.

Example model_progress_truncates : model_progress 7 2 = 72.
Proof. reflexivity. Qed.

Example default_run_succeeds :
  fst (@run host_plain argv0 O) = 0 /\
  progress_values (printed (snd (@run host_plain argv0 O)))
  = [0; 5; 20; 40; 60; 90; 95; 100] /\
  map fst (issued (snd (@run host_plain argv0 O)))
  = [ "curl --version"; "ollama --version";
      "sudo useradd -r -s /bin/false -m -d /usr/share/ollama ollama";
      "sudo mv /tmp/ollama.service /etc/systemd/system/";
      "sudo systemctl daemon-reload"; "sudo systemctl enable ollama";
      "sudo systemctl start ollama"; "sudo systemctl status ollama";
      "ollama pull llama2:7b";
      "curl -f http://localhost:11434/api/tags"; "ollama list" ]%string.
Proof. vm_compute. repeat split. Qed.

Example models_not_a_list_is_fatal :
  let out := @run (scripted (Some (inr (VDict [("models", VInt 5)]%string)))
                            all_zero) argv0 O in
  fst out = 1 /\
  last (printed (snd out)) VNone
  = error_line "'int' object is not iterable" PrimFloat.zero.
Proof. vm_compute. repeat split. Qed.


(** Takes a hypothesis built by the rules below apart. *)
Ltac break :=
  repeat match goal with
    | H : exists _, _ |- _ => destruct H
    | H : _ /\ _ |- _ => destruct H
    | H : _ \/ _ |- _ => destruct H
    | H : Ok _ = Ok _ |- _ => inversion H; clear H
    | H : Raise _ = Raise _ |- _ => inversion H; clear H
    | H : Raise _ = Ok _ |- _ => discriminate H
    | H : Ok _ = Raise _ |- _ => discriminate H
    | H : true = false |- _ => discriminate H
    | H : false = true |- _ => discriminate H
    | _ => progress subst
    end.

Section Rules.

Context {H : Host}.

Lemma progress_values_app (l1 l2 : list value) :
  progress_values (l1 ++ l2) = progress_values l1 ++ progress_values l2.
Proof.
  induction l1 as [|x l1 IH]; simpl; [reflexivity|].
  destruct (progress_of x); simpl; now rewrite IH.
Qed.

Lemma continues_refl (st : state H) : continues st st [] [].
Proof. split; now rewrite app_nil_r. Qed.

Lemma continues_trans (s1 s2 s3 : state H) l1 c1 l2 c2 :
  continues s1 s2 l1 c1 -> continues s2 s3 l2 c2 ->
  continues s1 s3 (l1 ++ l2) (c1 ++ c2).
Proof.
  intros [P1 I1] [P2 I2]. split.
  - now rewrite P2, P1, app_assoc.
  - now rewrite I2, I1, app_assoc.
Qed.

Lemma emits_weaken {A} (m : M H A) (R R' : _ -> _ -> _ -> Prop) :
  emits m R -> (forall r ls cs, no_exit r -> R r ls cs -> R' r ls cs) ->
  emits m R'.
Proof.
  intros Hm HR st. destruct (Hm st) as (Hx & lines & cmds & Hc & HRr).
  split; [exact Hx|]. exists lines, cmds. auto.
Qed.

(** Sequencing: what [m] did when it raised, or what [m] then [k a]
    did. *)
Lemma emits_bind {A B} (m : M H A) (k : A -> M H B) R1 R2 :
  emits m R1 -> (forall a, emits (k a) (R2 a)) ->
  emits (bind m k)
    (fun r ls cs =>
       (exists e, r = Raise e /\ R1 (Raise e) ls cs) \/
       (exists a l1 c1 l2 c2,
           ls = l1 ++ l2 /\ cs = c1 ++ c2 /\
           R1 (Ok a) l1 c1 /\ R2 a r l2 c2)).
Proof.
  intros Hm Hk st. unfold bind.
  destruct (Hm st) as (Hx & l1 & c1 & Hc1 & HR1).
  destruct (m st) as [[a|e] st1]; simpl in *.
  - destruct (Hk a st1) as (Hx2 & l2 & c2 & Hc2 & HR2).
    split; [exact Hx2|]. exists (l1 ++ l2), (c1 ++ c2).
    split; [eapply continues_trans; eauto|].
    right. exists a, l1, c1, l2, c2. auto.
  - split; [exact Hx|]. exists l1, c1. split; [exact Hc1|]. left. eauto.
Qed.

(** Handling: what [body] did when it returned, or what [body] then the
    handler did. *)
Lemma emits_try {A} (body : M H A) (handler : exn -> M H A) R1 R2 :
  emits body R1 ->
  (forall e, is_Exception e = true -> emits (handler e) (R2 e)) ->
  emits (try_except body handler)
    (fun r ls cs =>
       (exists a, r = Ok a /\ R1 (Ok a) ls cs) \/
       (exists e l1 c1 l2 c2,
           ls = l1 ++ l2 /\ cs = c1 ++ c2 /\
           R1 (Raise e) l1 c1 /\ R2 e r l2 c2)).
Proof.
  intros Hb Hh st. unfold try_except.
  destruct (Hb st) as (Hx & l1 & c1 & Hc1 & HR1).
  destruct (body st) as [[a|e] st1]; simpl in *.
  - split; [exact I|]. exists l1, c1. split; [exact Hc1|]. left. eauto.
  - rewrite Hx.
    destruct (Hh e Hx st1) as (Hx2 & l2 & c2 & Hc2 & HR2).
    split; [exact Hx2|]. exists (l1 ++ l2), (c1 ++ c2).
    split; [eapply continues_trans; eauto|].
    right. exists e, l1, c1, l2, c2. auto.
Qed.

Lemma emits_try_CalledProcessError {A}
    (body : M H A) (handler : exn -> M H A) R1 R2 :
  emits body R1 ->
  (forall e, is_CalledProcessError e = true -> emits (handler e) (R2 e)) ->
  emits (try_except_CalledProcessError body handler)
    (fun r ls cs =>
       (exists a, r = Ok a /\ R1 (Ok a) ls cs) \/
       (exists e, r = Raise e /\ is_CalledProcessError e = false /\
                  R1 (Raise e) ls cs) \/
       (exists e l1 c1 l2 c2,
           is_CalledProcessError e = true /\
           ls = l1 ++ l2 /\ cs = c1 ++ c2 /\
           R1 (Raise e) l1 c1 /\ R2 e r l2 c2)).
Proof.
  intros Hb Hh st. unfold try_except_CalledProcessError.
  destruct (Hb st) as (Hx & l1 & c1 & Hc1 & HR1).
  destruct (body st) as [[a|e] st1]; simpl in *.
  - split; [exact I|]. exists l1, c1. split; [exact Hc1|]. left. eauto.
  - destruct (is_CalledProcessError e) eqn:He.
    + destruct (Hh e He st1) as (Hx2 & l2 & c2 & Hc2 & HR2).
      split; [exact Hx2|]. exists (l1 ++ l2), (c1 ++ c2).
      split; [eapply continues_trans; eauto|].
      right; right. exists e, l1, c1, l2, c2. auto.
    + split; [exact Hx|]. exists l1, c1. split; [exact Hc1|].
      right; left. exists e. auto.
Qed.

Lemma emits_ret {A} (a : A) :
  emits (ret a : M H A) (fun r ls cs => r = Ok a /\ ls = [] /\ cs = []).
Proof.
  intros st; simpl. split; [exact I|]. exists [], [].
  split; [apply continues_refl|]. auto.
Qed.

Lemma emits_raise {A} (e : exn) :
  is_Exception e = true ->
  emits (raise e : M H A) (fun r ls cs => r = Raise e /\ ls = [] /\ cs = []).
Proof.
  intros He st; simpl. split; [exact He|]. exists [], [].
  split; [apply continues_refl|]. auto.
Qed.

(** A library call changes the world only. *)
Lemma emits_call {A} (f : world H -> A * world H) :
  emits (call f) (fun r ls cs => (exists a, r = Ok a) /\ ls = [] /\ cs = []).
Proof.
  intros st; unfold call. destruct (f (now st)) as [a w]; simpl.
  split; [exact I|]. exists [], []. split; [|eauto].
  split; simpl; now rewrite app_nil_r.
Qed.

Lemma emits_call_may_fail {A} (f : world H -> (host_error + A) * world H) :
  emits (call_may_fail f) (fun _ ls cs => ls = [] /\ cs = []).
Proof.
  intros st; unfold call_may_fail.
  destruct (f (now st)) as [[[cls msg]|a] w]; simpl;
    (split; [reflexivity || exact I|]); exists [], [];
    (split; [|auto]); split; simpl; now rewrite app_nil_r.
Qed.

Lemma emits_open_write (path content : string) :
  emits (open_write path content : M H unit)
        (fun _ ls cs => ls = [] /\ cs = []).
Proof.
  intros st; unfold open_write.
  destruct (write_path H path content (now st)) as [[[cls msg]|] w]; simpl;
    (split; [reflexivity || exact I|]); exists [], [];
    (split; [|auto]); split; simpl; now rewrite app_nil_r.
Qed.

Lemma emits_send_log (level message : string) :
  emits (send_log level message : M H unit)
    (fun r ls cs =>
       r = Ok tt /\ cs = [] /\
       exists line, ls = [line] /\ level_of line = Some level).
Proof.
  intros st. unfold send_log, bind, call, print, flush, ret.
  destruct (time_time H (now st)) as [t w]; simpl.
  split; [exact I|]. eexists [_], [].
  split; [split; simpl; [reflexivity|now rewrite app_nil_r]|].
  repeat split. eexists; split; reflexivity.
Qed.

Lemma emits_send_progress (p : Z) (message : string) :
  emits (send_progress p message : M H unit)
    (fun r ls cs =>
       r = Ok tt /\ cs = [] /\
       exists line, ls = [line] /\ progress_of line = Some p).
Proof.
  intros st. unfold send_progress, bind, call, print, flush, ret.
  destruct (time_time H (now st)) as [t w]; simpl.
  split; [exact I|]. eexists [_], [].
  split; [split; simpl; [reflexivity|now rewrite app_nil_r]|].
  repeat split. eexists; split; reflexivity.
Qed.

Lemma emits_subprocess_run (command : string) (check : bool) :
  emits (subprocess_run command check : M H _)
    (fun r ls cs =>
       ls = [] /\ exists a, cs = [(command, a)] /\ r = completed command check a).
Proof.
  intros st. unfold subprocess_run.
  destruct (shell H command (now st)) as [a w]; simpl. split.
  - destruct a as [[cls msg]|[[status out] err]]; simpl; [reflexivity|].
    destruct (check && negb (status =? 0)); simpl; [reflexivity|exact I].
  - exists [], [(command, a)]. split; [|eauto].
    split; simpl; [now rewrite app_nil_r|reflexivity].
Qed.

End Rules.

(** ** The command runner *)

Ltac solve_logs :=
  unfold logs in *; simpl;
  repeat first
    [ assumption
    | apply Forall_nil
    | apply Forall_app; split
    | match goal with
      | E : level_of ?x = Some _ |- Forall _ (?x :: _) =>
          apply Forall_cons;
          [unfold is_log; rewrite E; reflexivity|]
      end ].

Section Runner.

Context {H : Host}.

Lemma level_is_log (line : value) (l : string) :
  level_of line = Some l -> is_log line = true.
Proof. unfold is_log. now intros ->. Qed.

Lemma level_not_progress (line : value) (l : string) :
  level_of line = Some l -> progress_of line = None.
Proof.
  destruct line as [| | | | | |d]; try discriminate. unfold level_of, progress_of, has_type.
  destruct (type_of (VDict d)) as [t|]; [|discriminate].
  destruct (String.eqb_spec "log" t) as [<-|]; [reflexivity|discriminate].
Qed.

Lemma logs_one (line : value) (l : string) :
  level_of line = Some l -> logs [line].
Proof. intros E. constructor; [eapply level_is_log; eauto|constructor]. Qed.

Lemma logs_nil : logs [].
Proof. constructor. Qed.

Lemma emits_maybe_log (b : bool) (level message : string) :
  emits (if b then send_log level message else ret tt : M H unit)
        (fun r ls cs => r = Ok tt /\ cs = [] /\ logs ls).
Proof.
  destruct b.
  - eapply emits_weaken; [apply emits_send_log|].
    intros r ls cs _ (-> & -> & line & -> & E). eauto using logs_one.
  - eapply emits_weaken; [apply emits_ret|].
    intros r ls cs _ (-> & -> & ->). auto using logs_nil.
Qed.

(** [run_command] prints log lines, gives the shell exactly the command it
    was given, and returns or raises what [subprocess.run] does. *)
Lemma emits_run_command (command : string) (check : bool) :
  emits (run_command command check : M H _)
    (fun r ls cs =>
       logs ls /\
       exists a, cs = [(command, a)] /\ r = completed command check a).
Proof.
  unfold run_command. eapply emits_weaken.
  - eapply emits_bind; [apply emits_send_log|intros ?].
    eapply emits_try_CalledProcessError.
    + eapply emits_bind; [apply emits_subprocess_run|intros result].
      eapply emits_bind; [apply emits_maybe_log|intros ?].
      eapply emits_bind; [apply emits_maybe_log|intros ?].
      apply emits_ret.
    + intros e He.
      eapply emits_bind; [apply emits_send_log|intros ?].
      apply emits_raise. now destruct e.
  - cbv beta. intros r ls cs Hx HR. break;
      (split; [solve_logs|eexists; split; [reflexivity|congruence]]).
Qed.

Lemma emits_getitem (d : dict) (k : string) :
  emits (getitem d k : M H value)
    (fun r ls cs =>
       ls = [] /\ cs = [] /\
       r = match dict_get d k with
           | Some v => Ok v
           | None => Raise (KeyError k)
           end).
Proof.
  unfold getitem. destruct (dict_get d k).
  - eapply emits_weaken; [apply emits_ret|]. intros r ls cs _ (-> & -> & ->). auto.
  - eapply emits_weaken; [now apply emits_raise|].
    intros r ls cs _ (-> & -> & ->). auto.
Qed.

Lemma emits_if {A} (b : bool) (m1 m2 : M H A) R1 R2 :
  emits m1 R1 -> emits m2 R2 ->
  emits (if b then m1 else m2)
    (fun r ls cs => (b = true /\ R1 r ls cs) \/ (b = false /\ R2 r ls cs)).
Proof.
  intros H1 H2. destruct b.
  - eapply emits_weaken; [exact H1|]. auto.
  - eapply emits_weaken; [exact H2|]. auto.
Qed.

End Runner.

(** Applies the rules along the structure of a computation. *)
Ltac emits_rules :=
  repeat first
    [ apply emits_send_log
    | apply emits_send_progress
    | apply emits_run_command
    | apply emits_maybe_log
    | apply emits_ret
    | apply emits_raise; reflexivity
    | apply emits_call
    | apply emits_call_may_fail
    | apply emits_open_write
    | apply emits_getitem
    | eapply emits_bind; [|intros ?]
    | eapply emits_try; [|intros ? ?]
    | eapply emits_if ].

Ltac solve_cmds :=
  simpl;
  repeat first
    [ apply Forall_nil
    | apply Forall_cons; [reflexivity|]
    | apply Forall_app; split
    | assumption ].

Ltac solve_announced :=
  unfold announced; simpl; eexists _, _;
  split; [reflexivity|split; [eassumption|solve_logs]].

(** ** The stages *)

Section Stages.

Context {H : Host}.

Lemma stage_check_system_requirements (self : LLMServerDeployer) :
  stage 5 (check_system_requirements self : M H bool).
Proof.
  unfold stage, check_system_requirements. eapply emits_weaken.
  - emits_rules.
  - cbv beta. intros r ls cs Hx HR.
    break; (split; [solve_announced|solve_cmds]).
Qed.

Lemma stage_install_ollama (self : LLMServerDeployer) :
  stage 20 (install_ollama self : M H bool).
Proof.
  unfold stage, install_ollama. eapply emits_weaken.
  - emits_rules.
  - cbv beta. intros r ls cs Hx HR.
    break; (split; [solve_announced|solve_cmds]).
Qed.

Lemma stage_start_ollama_service (self : LLMServerDeployer) :
  stage 40 (start_ollama_service self : M H bool).
Proof.
  unfold stage, start_ollama_service. eapply emits_weaken.
  - emits_rules.
  - cbv beta. intros r ls cs Hx HR.
    break; (split; [solve_announced|solve_cmds]).
Qed.

Lemma stage_verify_installation (self : LLMServerDeployer) :
  stage 95 (verify_installation self : M H bool).
Proof.
  unfold stage, verify_installation. eapply emits_weaken.
  - emits_rules.
  - cbv beta. intros r ls cs Hx HR.
    break; (split; [solve_announced|solve_cmds]).
Qed.

End Stages.

(** ** Fetching the models *)

Section Fetch.

Context {H : Host}.

Lemma completed_check_ok (command : string) (a : answer) res :
  completed command true a = Ok res -> exited_zero a = true.
Proof.
  destruct a as [[cls msg]|[[status out] err]]; simpl; [discriminate|].
  destruct (status =? 0); [reflexivity|discriminate].
Qed.

Lemma completed_check_raise (command : string) (a : answer) e :
  completed command true a = Raise e -> exited_zero a = false.
Proof.
  destruct a as [[cls msg]|[[status out] err]]; simpl; [reflexivity|].
  destruct (status =? 0); [discriminate|reflexivity].
Qed.

Lemma bind_ret {A B} (a : A) (k : A -> M H B) : bind (ret a) k = k a.
Proof. reflexivity. Qed.

Lemma bind_raise {A B} (e : exn) (k : A -> M H B) :
  bind (raise e) k = raise e.
Proof. reflexivity. Qed.

Lemma len_iter (v : value) (items : list value) :
  iter v = inr items -> len v = inr (Z.of_nat (List.length items)).
Proof.
  destruct v; simpl; try discriminate; intros E; inversion E; subst.
  - now rewrite length_map.
  - reflexivity.
  - unfold keys. now rewrite !length_map.
Qed.

Lemma iter_Exception (v : value) (e : exn) :
  iter v = inl e -> is_Exception e = true.
Proof.
  destruct v; simpl; intros E; inversion E; reflexivity.
Qed.

(** One turn announces the progress value of its index, issues the pull of
    its model and nothing else, and says whether that pull exited with
    status 0. *)
Lemma emits_download_model (self : LLMServerDeployer) (models : value)
    (n i : Z) (model : value) :
  dict_get (config self) "models" = Some models ->
  len models = inr n -> n <> 0 ->
  emits (download_model self i model : M H bool)
    (fun r ls cs =>
       announced (model_progress n i) ls /\
       exists a, cs = [(pull_command H model, a)] /\ r = Ok (exited_zero a)).
Proof.
  intros Hm Hl Hn. unfold download_model, getitem, truediv.
  rewrite Hm, bind_ret, Hl. unfold eval. rewrite bind_ret.
  apply Z.eqb_neq in Hn. rewrite Hn, bind_ret.
  eapply emits_weaken.
  - emits_rules.
  - cbv beta. intros r ls cs Hx HR. break;
      (split; [solve_announced|eexists; split; [reflexivity|]]).
    + symmetry in H18. now rewrite (completed_check_ok _ _ _ H18).
    + match goal with
      | E : Raise _ = completed _ _ _ |- _ =>
          symmetry in E; now rewrite (completed_check_raise _ _ _ E)
      end.
Qed.

Lemma emits_download_loop (self : LLMServerDeployer) (models : value) (n : Z) :
  dict_get (config self) "models" = Some models ->
  len models = inr n ->
  forall (items : list value) (i : Z),
    n <> 0 \/ items = [] ->
    emits (download_loop self i items : M H bool) (turns H n i items).
Proof.
  intros Hm Hl items.
  induction items as [|model rest IH]; intros i Hn; simpl.
  - eapply emits_weaken; [apply emits_ret|].
    intros r ls cs _ (-> & -> & ->). constructor.
  - destruct Hn as [Hn|Hn]; [|discriminate].
    eapply emits_weaken.
    + eapply emits_bind;
        [apply (emits_download_model self models n i model Hm Hl Hn)|].
      intros continue. eapply emits_if; [apply (IH (i + 1)); auto|].
      apply emits_ret.
    + cbv beta. intros r ls cs Hx HR. break.
      * simpl. apply turns_next; auto.
      * rewrite !app_nil_r. apply turns_fail; auto.
Qed.

(** What [download_models] leaves: the announcement of the stage, then
    either nothing, when the configured models cannot be iterated over,
    or the turns of the loop. *)
Lemma emits_download_models (self : LLMServerDeployer) :
  emits (download_models self : M H bool)
    (fun r ls cs =>
       exists line rest,
         ls = line :: rest /\ progress_of line = Some 60 /\
         ((rest = [] /\ cs = [] /\ model_items self = [] /\
           exists e, r = Raise e) \/
          turns H (Z.of_nat (List.length (model_items self))) 0
                (model_items self) r rest cs)).
Proof.
  unfold download_models, getitem, model_items.
  destruct (dict_get (config self) "models") as [models|] eqn:Hm.
  - rewrite bind_ret. destruct (iter models) as [e|items] eqn:Hi; unfold eval.
    + eapply emits_weaken;
        [eapply emits_bind;
           [apply emits_send_progress
           |intros ?; apply emits_raise; eapply iter_Exception; eauto]|].
      cbv beta. intros r ls cs Hx HR. break.
      eexists _, []. split; [reflexivity|]. split; [eassumption|].
      left. eauto.
    + rewrite bind_ret. eapply emits_weaken.
      * eapply emits_bind; [apply emits_send_progress|intros ?].
        apply (emits_download_loop self models _ Hm (len_iter _ _ Hi)).
        destruct items; [now right|left; simpl; lia].
      * cbv beta. intros r ls cs Hx HR. break.
        eexists _, _. split; [reflexivity|]. split; [eassumption|].
        right. assumption.
  - rewrite bind_raise.
    eapply emits_weaken;
      [eapply emits_bind;
         [apply emits_send_progress|intros ?; now apply emits_raise]|].
    cbv beta. intros r ls cs Hx HR. break.
    eexists _, []. split; [reflexivity|]. split; [eassumption|].
    left. eauto.
Qed.

End Fetch.

(** ** The progress values *)

Section Progress.

Lemma model_progress_eq (n i : Z) :
  0 < n -> 0 <= i -> model_progress n i = 60 + 30 * (i + 1) / n.
Proof.
  intros Hn Hi. unfold model_progress, int_of.
  destruct n as [|p|p]; try lia.
  cbn [Qplus Qmult Qinv Qdiv inject_Z Qnum Qden].
  rewrite Pos.mul_1_l, Z.mul_1_r.
  rewrite Z.quot_div_nonneg by lia.
  rewrite Z.mul_1_r.
  now rewrite Z.div_add_l by lia.
Qed.

Lemma model_progress_bounds (n i : Z) :
  0 <= i < n -> 60 <= model_progress n i <= 90.
Proof.
  intros Hi. rewrite model_progress_eq by lia.
  assert (0 <= 30 * (i + 1) / n) by (apply Z.div_pos; lia).
  assert (30 * (i + 1) / n <= 30)
    by (apply Z.div_le_upper_bound; lia).
  lia.
Qed.

Lemma model_progress_mono (n i j : Z) :
  0 <= i <= j -> j < n -> model_progress n i <= model_progress n j.
Proof.
  intros Hi Hj. rewrite !model_progress_eq by lia.
  assert (30 * (i + 1) / n <= 30 * (j + 1) / n)
    by (apply Z.div_le_mono; lia).
  lia.
Qed.

End Progress.

Section Timeline.

Lemma range_app (a b : nat) (i : Z) :
  range i (a + b) = range i a ++ range (i + Z.of_nat a) b.
Proof.
  revert i. induction a as [|a IH]; intros i.
  - simpl. now rewrite Z.add_0_r.
  - cbn [Nat.add range app]. rewrite IH. do 3 f_equal. lia.
Qed.

Lemma In_range (k : nat) (i x : Z) :
  In x (range i k) -> i <= x < i + Z.of_nat k.
Proof.
  revert i. induction k as [|k IH]; intros i; simpl; [tauto|].
  intros [<-|Hx]; [lia|]. apply IH in Hx. lia.
Qed.

Lemma range_progress_sorted (n : Z) (k : nat) (i : Z) :
  0 <= i -> i + Z.of_nat k <= n ->
  StronglySorted Z.le (map (model_progress n) (range i k)).
Proof.
  revert i. induction k as [|k IH]; intros i Hi Hk; simpl; constructor.
  - apply IH; lia.
  - apply Forall_forall. intros y Hy. apply in_map_iff in Hy.
    destruct Hy as (j & <- & Hj). apply In_range in Hj.
    apply model_progress_mono; lia.
Qed.

Lemma range_progress_bounds (n : Z) (k : nat) (i : Z) :
  0 <= i -> i + Z.of_nat k <= n ->
  Forall (fun p => 60 <= p <= 90) (map (model_progress n) (range i k)).
Proof.
  intros Hi Hk. apply Forall_forall. intros y Hy. apply in_map_iff in Hy.
  destruct Hy as (j & <- & Hj). apply In_range in Hj.
  apply model_progress_bounds; lia.
Qed.

Lemma timeline_bounds (n : nat) :
  Forall (fun p => 0 <= p <= 100) (timeline n).
Proof.
  unfold timeline. apply Forall_app; split; [repeat constructor; lia|].
  apply Forall_app; split; [|repeat constructor; lia].
  eapply Forall_impl; [|apply (range_progress_bounds (Z.of_nat n) n 0); lia].
  simpl; intros; lia.
Qed.

Lemma timeline_sorted (n : nat) : StronglySorted Z.le (timeline n).
Proof.
  unfold timeline.
  pose proof (range_progress_bounds (Z.of_nat n) n 0 ltac:(lia) ltac:(lia)) as B.
  pose proof (range_progress_sorted (Z.of_nat n) n 0 ltac:(lia) ltac:(lia)) as S.
  set (ms := map (model_progress (Z.of_nat n)) (range 0 n)) in *.
  assert (T : StronglySorted Z.le (ms ++ [95; 100])).
  { clearbody ms. induction S as [|x l Sl IH Fx]; simpl.
    - repeat constructor; lia.
    - inversion B; subst. constructor; [now apply IH|].
      apply Forall_app; split; [exact Fx|]. repeat constructor; lia. }
  assert (F : Forall (fun p => 60 <= p) (ms ++ [95; 100])).
  { apply Forall_app; split; [|repeat constructor; lia].
    eapply Forall_impl; [|exact B]. simpl; intros; lia. }
  simpl.
  repeat (constructor;
          [|try (eapply Forall_impl; [|exact F]; simpl; intros; lia);
            repeat (constructor; [lia|]);
            try (eapply Forall_impl; [|exact F]; simpl; intros; lia)]).
  exact T.
Qed.

Lemma prefix_sorted (l l' : list Z) :
  prefix_of l l' -> StronglySorted Z.le l' -> StronglySorted Z.le l.
Proof.
  intros [rest ->]. revert rest. induction l as [|x l IH]; intros rest S.
  - constructor.
  - simpl in S. inversion S; subst. constructor; [eapply IH; eauto|].
    match goal with F : Forall _ (l ++ rest) |- _ =>
      apply Forall_app in F; tauto end.
Qed.

Lemma prefix_Forall {A} (P : A -> Prop) (l l' : list A) :
  prefix_of l l' -> Forall P l' -> Forall P l.
Proof. intros [rest ->] F. apply Forall_app in F. tauto. Qed.

Lemma prefix_refl {A} (l : list A) : prefix_of l l.
Proof. exists []. now rewrite app_nil_r. Qed.

End Timeline.

(** ** What the turns of the loop leave behind *)

Section Turns.

Context {H : Host}.

Lemma log_not_progress (line : value) :
  is_log line = true -> progress_of line = None.
Proof.
  unfold is_log. destruct (level_of line) eqn:E; [|discriminate].
  intros _. eapply level_not_progress; eauto.
Qed.

Lemma logs_reports (ls : list value) : logs ls -> reports ls.
Proof.
  intros L. eapply Forall_impl; [|exact L]. simpl. intros l E.
  unfold is_report. rewrite E. apply orb_true_r.
Qed.

Lemma logs_progress_values (ls : list value) :
  logs ls -> progress_values ls = [].
Proof.
  induction 1 as [|l ls Hl _ IH]; simpl; [reflexivity|].
  now rewrite (log_not_progress _ Hl).
Qed.

Lemma announced_reports (p : Z) (ls : list value) :
  announced p ls -> reports ls.
Proof.
  intros (line & rest & -> & Hp & Hl). constructor; [|now apply logs_reports].
  unfold is_report, is_progress. now rewrite Hp.
Qed.

Lemma announced_progress_values (p : Z) (ls : list value) :
  announced p ls -> progress_values ls = [p].
Proof.
  intros (line & rest & -> & Hp & Hl). simpl. rewrite Hp.
  now rewrite logs_progress_values.
Qed.

Lemma turns_reports n i items r ls cs :
  turns H n i items r ls cs -> reports ls.
Proof.
  induction 1.
  - constructor.
  - eapply announced_reports; eauto.
  - apply Forall_app; split; [eapply announced_reports; eauto|assumption].
Qed.

(** The progress values of the turns taken are those of the first indices. *)
Lemma turns_progress_values n i items r ls cs :
  turns H n i items r ls cs ->
  exists k : nat,
    (k <= List.length items)%nat /\
    progress_values ls = map (model_progress n) (range i k) /\
    (r = Ok true -> k = List.length items).
Proof.
  induction 1 as [i|i model rest ls a A E|i model rest ls a r ls' cs' A E T IH].
  - exists O. simpl. auto.
  - exists 1%nat. simpl. split; [lia|].
    split; [now apply announced_progress_values|discriminate].
  - destruct IH as (k & Hk & Hp & Hr). exists (S k). simpl.
    split; [lia|]. rewrite progress_values_app, Hp.
    rewrite (announced_progress_values _ _ A). split; [reflexivity|].
    intros ->. now rewrite Hr.
Qed.

Lemma turns_prefix n i items r ls cs :
  turns H n i items r ls cs ->
  prefix_of (progress_values ls)
            (map (model_progress n) (range i (List.length items))).
Proof.
  intros T. destruct (turns_progress_values _ _ _ _ _ _ T) as (k & Hk & -> & _).
  replace (List.length items) with (k + (List.length items - k))%nat by lia.
  rewrite range_app, map_app. eexists; reflexivity.
Qed.

(** The commands of the turns are the pulls of the first items, in order;
    all exited with status 0 but possibly the last; the loop returned
    [True] when all did and [False] otherwise. *)
Lemma turns_commands n i items r ls cs :
  turns H n i items r ls cs ->
  map fst cs = map (pull_command H) (firstn (List.length cs) items) /\
  ((r = Ok true /\ List.length cs = List.length items /\
    Forall (fun c => exited_zero (snd c) = true) cs) \/
   (r = Ok false /\
    exists pre c, cs = pre ++ [c] /\
      Forall (fun c => exited_zero (snd c) = true) pre /\
      exited_zero (snd c) = false)).
Proof.
  induction 1 as [i|i model rest ls a A E|i model rest ls a r ls' cs' A E T IH].
  - split; [reflexivity|]. left. auto.
  - split; [reflexivity|]. right. split; [reflexivity|].
    exists [], (pull_command H model, a). auto.
  - destruct IH as (Hm & Hr). split; [simpl; now rewrite Hm|].
    destruct Hr as [(-> & Hl & Hz)|(-> & pre & c & -> & Hz & Hc)].
    + left. simpl. auto.
    + right. split; [reflexivity|].
      exists ((pull_command H model, a) :: pre), c. simpl. auto.
Qed.

(** Fail-fast on the trace: a pull that failed is the last command of the
    loop, and the loop returned [False]. *)
Lemma turns_fail_fast n i items r ls cs c :
  turns H n i items r ls cs -> In c cs -> exited_zero (snd c) = false ->
  r = Ok false /\ exists pre, cs = pre ++ [c].
Proof.
  intros T. destruct (turns_commands _ _ _ _ _ _ T) as (_ & Hr).
  intros Hin Hc.
  destruct Hr as [(_ & _ & Hz)|(-> & pre & c' & -> & Hz & Hc')].
  - rewrite Forall_forall in Hz. rewrite (Hz c Hin) in Hc. discriminate.
  - split; [reflexivity|]. apply in_app_iff in Hin.
    destruct Hin as [Hin|[<-|[]]]; [|eauto].
    rewrite Forall_forall in Hz. rewrite (Hz c Hin) in Hc. discriminate.
Qed.

Lemma turns_result n i items r ls cs :
  turns H n i items r ls cs -> exists b, r = Ok b.
Proof. induction 1; eauto. Qed.

Lemma not_pull_not_failed (cs : list (string * answer)) c :
  Forall not_pull cs -> In c cs -> failed_pull c -> False.
Proof.
  intros F Hin [Hp _]. rewrite Forall_forall in F.
  specialize (F c Hin). unfold not_pull in F. congruence.
Qed.

End Turns.

(** ** The orchestrator *)

Ltac solve_reports :=
  unfold reports; simpl;
  repeat first
    [ apply Forall_nil
    | apply Forall_app; split
    | eapply announced_reports; eassumption
    | eapply turns_reports; eassumption
    | match goal with
      | E : progress_of ?x = Some _ |- Forall _ (?x :: _) =>
          apply Forall_cons;
          [unfold is_report, is_progress; rewrite E; reflexivity|]
      end ].

(** Brings the progress values of a list of lines to a list of numbers. *)
Ltac eval_progress :=
  repeat rewrite progress_values_app;
  repeat match goal with
    | A : announced ?p ?l |- context [progress_values ?l] =>
        rewrite (announced_progress_values p l A)
    end;
  cbn [progress_values];
  repeat match goal with
    | E : progress_of ?x = Some _ |- context [progress_of ?x] => rewrite E
    end;
  cbn [progress_values].

Ltac solve_prefix :=
  eval_progress;
  try match goal with
    | T : turns _ _ _ _ (Ok true) ?l _
      |- context [progress_values ?l] =>
        let k := fresh "k" in
        let Hk := fresh "Hk" in
        destruct (turns_progress_values _ _ _ _ _ _ T) as (k & _ & -> & Hk);
        rewrite (Hk eq_refl)
    | T : turns _ _ _ _ _ ?l _
      |- context [progress_values ?l] =>
        let rest := fresh "rest" in
        let Hr := fresh "Hr" in
        destruct (turns_prefix _ _ _ _ _ _ T) as (rest & Hr);
        unfold timeline; rewrite Hr
    end;
  unfold timeline, prefix_of; eexists; simpl;
  rewrite <- ?app_assoc; simpl;
  reflexivity.

(** A failed pull among the commands of the stages. *)
Ltac solve_fail_fast :=
  let c := fresh "c" in
  let Hin := fresh "Hin" in
  let Hf := fresh "Hf" in
  intros c Hin Hf;
  repeat rewrite in_app_iff in Hin; simpl in Hin;
  repeat match goal with
    | Hin : _ \/ _ |- _ => destruct Hin as [Hin|Hin]
    | Hin : False |- _ => destruct Hin
    | Hin : In ?c ?l, F : Forall not_pull ?l |- _ =>
        exfalso; exact (not_pull_not_failed l c F Hin Hf)
    end;
  try match goal with
    | Hin : In ?c ?l, T : turns _ _ _ _ _ _ ?l |- _ =>
        let pre := fresh "pre" in
        let E := fresh "E" in
        let Hz := fresh "Hz" in
        assert (Hz : exited_zero (snd c) = false) by apply Hf;
        destruct (turns_fail_fast _ _ _ _ _ _ _ T Hin Hz)
          as (E & pre & ->);
        first
          [ discriminate E
          | split; [|reflexivity];
            simpl; rewrite ?app_nil_r; repeat rewrite app_assoc;
            eexists; reflexivity ]
    end.

Section Deploy.

Context {H : Host}.

Lemma deploy_unfold (self : LLMServerDeployer) :
  deploy self = try_except (deploy_steps self) (@deploy_handler H).
Proof. reflexivity. Qed.

Lemma deploy_handler_run (e : exn) (st : state H) :
  exists t st',
    deploy_handler e st = (Raise (SystemExit 1), st') /\
    printed st' = printed st ++ [error_line (str_exn H e) t] /\
    issued st' = issued st /\ logged st' = logged st.
Proof.
  unfold deploy_handler, bind, call, print, sys_exit, raise.
  destruct (time_time H (now st)) as [t w]. simpl.
  exists t. eexists. split; [reflexivity|]. simpl. auto.
Qed.

Lemma emits_print (d : dict) :
  emits (print d : M H unit)
        (fun r ls cs => r = Ok tt /\ ls = [VDict d] /\ cs = []).
Proof.
  intros st. simpl. split; [exact I|]. exists [VDict d], [].
  split; [split; simpl; [reflexivity|now rewrite app_nil_r]|auto].
Qed.

(** The lines and the commands of the [try] block: a failed pull is its
    last command and makes it raise the model-download error; when it
    returns, it has printed the whole timeline and then the completion
    line; when it raises, it has printed reports only, whose progress
    values begin the timeline. *)
Lemma emits_deploy_steps (self : LLMServerDeployer) :
  emits (deploy_steps self : M H unit)
    (fun r ls cs =>
       (forall c, In c cs -> failed_pull c ->
          (exists pre, cs = pre ++ [c]) /\
          r = Raise (Exception "Ошибка загрузки моделей")) /\
       ((r = Ok tt /\
         (forall c, In c cs -> failed_pull c -> False) /\
         exists body,
           ls = body ++ [complete_line self] /\ reports body /\
           progress_values body = timeline (List.length (model_items self))) \/
        ((exists e, r = Raise e) /\
         reports ls /\
         prefix_of (progress_values ls)
                   (timeline (List.length (model_items self)))))).
Proof.
  unfold deploy_steps. eapply emits_weaken.
  - eapply emits_bind; [apply emits_send_progress|intros ?].
    eapply emits_bind; [apply stage_check_system_requirements|intros ?].
    eapply emits_bind; [emits_rules|intros ?].
    eapply emits_bind; [apply stage_install_ollama|intros ?].
    eapply emits_bind; [emits_rules|intros ?].
    eapply emits_bind; [apply stage_start_ollama_service|intros ?].
    eapply emits_bind; [emits_rules|intros ?].
    eapply emits_bind; [apply emits_download_models|intros ?].
    eapply emits_bind; [emits_rules|intros ?].
    eapply emits_bind; [apply stage_verify_installation|intros ?].
    eapply emits_bind; [emits_rules|intros ?].
    eapply emits_bind; [apply emits_send_progress|intros ?].
    apply emits_print.
  - cbv beta. intros r ls cs Hx HR. break.
    all: repeat match goal with
           | T : turns _ _ _ _ (Raise _) _ _ |- _ =>
               destruct (turns_result _ _ _ _ _ _ T); discriminate
           | E : negb ?b = _ |- _ => destruct b; simpl in E; try discriminate E; clear E
           end.
    all: split; [solve_fail_fast|].
    all: try solve [right; split; [eauto|split; [solve_reports|solve_prefix]]].
    left. split; [reflexivity|]. split; [solve_fail_fast|].
    repeat rewrite app_assoc. eexists. split; [reflexivity|].
    split; [solve_reports|].
    eval_progress.
    match goal with
    | T : turns _ _ _ _ (Ok true) _ _ |- _ =>
        destruct (turns_progress_values _ _ _ _ _ _ T) as (k & _ & -> & Hk);
        rewrite (Hk eq_refl)
    end.
    unfold timeline. simpl. rewrite ?app_nil_r, <- ?app_assoc. reflexivity.
Qed.

(** The [try] block returns exactly when every stage returned [True]. *)
Lemma deploy_steps_result (self : LLMServerDeployer) (st : state H) :
  fst (deploy_steps self st) = Ok tt <-> stages_succeed self st.
Proof.
  unfold stages_succeed, deploy_steps, bind. split.
  - destruct (send_progress 0 _ st) as [[[]|e0] s0] eqn:E0;
      [|discriminate].
    destruct (check_system_requirements self s0) as [[[|]|e1] s1] eqn:E1;
      simpl; try discriminate.
    destruct (install_ollama self s1) as [[[|]|e2] s2] eqn:E2;
      simpl; try discriminate.
    destruct (start_ollama_service self s2) as [[[|]|e3] s3] eqn:E3;
      simpl; try discriminate.
    destruct (download_models self s3) as [[[|]|e4] s4] eqn:E4;
      simpl; try discriminate.
    destruct (verify_installation self s4) as [[[|]|e5] s5] eqn:E5;
      simpl; try discriminate.
    intros _. exists s0, s1, s2, s3, s4, s5. repeat split; assumption.
  - intros (s0 & s1 & s2 & s3 & s4 & s5 & T0 & T1 & T2 & T3 & T4 & T5).
    rewrite T0, T1. simpl. rewrite T2. simpl. rewrite T3. simpl.
    rewrite T4. simpl. rewrite T5. simpl.
    destruct (emits_send_progress 100 "Развертывание завершено успешно" s5)
      as (_ & l & c & _ & E & _).
    destruct (send_progress 100 _ s5) as [r6 s6]. simpl in E. subst r6.
    reflexivity.
Qed.

(** One call of [deploy]: reports, then one last line; the completion line
    and a normal return when every stage succeeded, an error line and
    [sys.exit(1)] otherwise; a failed pull is the last command issued. *)
Lemma deploy_outcome (self : LLMServerDeployer) (st : state H) :
  exists body last cmds,
    continues st (snd (deploy self st)) (body ++ [last]) cmds /\
    reports body /\
    prefix_of (progress_values body)
              (timeline (List.length (model_items self))) /\
    (forall c, In c cmds -> failed_pull c ->
       (exists pre, cmds = pre ++ [c]) /\
       fst (deploy self st) = Raise (SystemExit 1) /\
       exists t, last = error_line "Ошибка загрузки моделей" t) /\
    ((fst (deploy self st) = Ok tt /\
      stages_succeed self st /\
      last = complete_line self /\
      progress_values body = timeline (List.length (model_items self))) \/
     (fst (deploy self st) = Raise (SystemExit 1) /\
      ~ stages_succeed self st /\
      exists message t, last = error_line message t)).
Proof.
  pose proof (deploy_steps_result self st) as B.
  destruct (emits_deploy_steps self st) as (Hx & ls & cs & [P I] & FF & R).
  rewrite deploy_unfold. unfold try_except.
  destruct (deploy_steps self st) as [r s1]. simpl in *.
  destruct R as [(-> & NF & body & -> & Rb & Pb)|((e & ->) & Rl & Pl)].
  - exists body, (complete_line self), cs. simpl.
    split; [split; assumption|]. split; [assumption|].
    split; [rewrite Pb; apply prefix_refl|].
    split; [intros c Hin Hf; destruct (NF c Hin Hf)|].
    left. repeat split; auto. now apply B.
  - simpl in Hx. rewrite Hx.
    destruct (deploy_handler_run e s1) as (t & s2 & -> & P2 & I2 & _). simpl.
    exists ls, (error_line (str_exn H e) t), cs.
    split; [split; [now rewrite P2, P, app_assoc|congruence]|].
    split; [assumption|]. split; [assumption|].
    split.
    + intros c Hin Hf. destruct (FF c Hin Hf) as (Hpre & E).
      inversion E; subst. split; [assumption|]. split; [reflexivity|].
      exists t. reflexivity.
    + right. split; [reflexivity|]. split; [|eauto].
      intros S. apply B in S. discriminate.
Qed.

End Deploy.

(** ** Dictionaries *)

Section Dict.

Lemma dict_get_set (d : dict) (k : string) (v : value) (q : string) :
  dict_get (dict_set d k v) q
  = if String.eqb q k then Some v else dict_get d q.
Proof.
  induction d as [|[k' v'] d IH]; simpl.
  - reflexivity.
  - destruct (String.eqb_spec k k') as [<-|Hk]; simpl.
    + destruct (String.eqb q k); reflexivity.
    + rewrite IH. destruct (String.eqb_spec q k') as [->|Hq].
      * destruct (String.eqb_spec k' k); [congruence|reflexivity].
      * reflexivity.
Qed.

Lemma dict_get_None (d : dict) (k : string) :
  ~ In k (keys d) -> dict_get d k = None.
Proof.
  induction d as [|[k' v'] d IH]; simpl; [reflexivity|]. intros Hn.
  destruct (String.eqb_spec k k') as [->|Hk]; [tauto|]. apply IH. tauto.
Qed.


(** [d.update(other)] looks a key up in [other] first. *)
Lemma dict_get_update (other d : dict) (k : string) :
  NoDup (keys other) ->
  dict_get (dict_update d other) k
  = match dict_get other k with
    | Some v => Some v
    | None => dict_get d k
    end.
Proof.
  unfold dict_update. revert d.
  induction other as [|[k1 v1] other IH]; intros d Hn; simpl.
  - reflexivity.
  - inversion Hn as [|? ? Hk1 Hn']; subst. rewrite IH by assumption.
    rewrite dict_get_set.
    destruct (String.eqb_spec k k1) as [->|Hk].
    + now rewrite (dict_get_None other k1 Hk1).
    + reflexivity.
Qed.

Lemma keys_set (d : dict) (k : string) (v : value) :
  keys (dict_set d k v) = if has_key d k then keys d else keys d ++ [k].
Proof.
  unfold has_key. induction d as [|[k' v'] d IH]; simpl.
  - reflexivity.
  - destruct (String.eqb k k'); simpl; [reflexivity|].
    rewrite IH. now destruct (existsb (String.eqb k) (keys d)).
Qed.

(** [d.update(other)] keeps the keys of [d] in place and appends the new
    keys of [other] in their order. *)
Lemma keys_update (other d : dict) :
  NoDup (keys other) ->
  keys (dict_update d other)
  = keys d ++ filter (fun k => negb (has_key d k)) (keys other).
Proof.
  unfold dict_update. revert d.
  induction other as [|[k1 v1] other IH]; intros d Hn; simpl.
  - now rewrite app_nil_r.
  - inversion Hn as [|? ? Hk1 Hn']; subst. rewrite IH by assumption.
    rewrite keys_set. destruct (has_key d k1) eqn:E1; simpl.
    + f_equal. apply filter_ext_in. intros k Hk. f_equal.
      unfold has_key. now rewrite keys_set, E1.
    + rewrite <- app_assoc. simpl. do 2 f_equal.
      apply filter_ext_in. intros k Hk. f_equal.
      unfold has_key. rewrite keys_set, E1, existsb_app. simpl.
      destruct (String.eqb_spec k k1) as [->|]; [contradiction|].
      now rewrite !orb_false_r.
Qed.

Lemma default_config_update : dict_update [] default_config = default_config.
Proof. reflexivity. Qed.

(** The display [{**default_config, **overlay}]: lookups go to the overlay
    first, the six default keys stay in place, new keys follow. *)
Lemma dict_merge_default (overlay : dict) :
  NoDup (keys overlay) ->
  (forall k,
      dict_get (dict_merge default_config overlay) k
      = match dict_get overlay k with
        | Some v => Some v
        | None => dict_get default_config k
        end) /\
  keys (dict_merge default_config overlay)
  = keys default_config
      ++ filter (fun k => negb (has_key default_config k)) (keys overlay).
Proof.
  intros Hn. unfold dict_merge. rewrite default_config_update. split.
  - intros k. now apply dict_get_update.
  - now apply keys_update.
Qed.

End Dict.

(** ** Resolving the configuration and running the script *)

Section Run.

Context {H : Host}.

(** The four ways [load_config] can go. *)
Lemma load_config_cases (path : string) (st : state H) :
  let (present, w1) := os_path_exists H path (now st) in
  if present then
    let (loaded, w2) := json_load_path H path w1 in
    match loaded with
    | inr (VDict overlay) =>
        load_config path st
        = (Ok (dict_merge default_config overlay),
           {| now := w2; printed := printed st; logged := logged st;
              issued := issued st |})
    | inr v =>
        load_config path st
        = (Ok default_config,
           {| now := w2; printed := printed st;
              logged := logged st ++
                [("WARNING",
                  ("Ошибка загрузки конфига: '" ++ type_name v
                     ++ "' object is not a mapping"
                     ++ ". Используем дефолтный.")%string)];
              issued := issued st |})
    | inl (cls, msg) =>
        load_config path st
        = (Ok default_config,
           {| now := w2; printed := printed st;
              logged := logged st ++
                [("WARNING",
                  ("Ошибка загрузки конфига: " ++ msg
                     ++ ". Используем дефолтный.")%string)];
              issued := issued st |})
    end
  else
    load_config path st
    = (Ok default_config,
       {| now := w1; printed := printed st; logged := logged st;
          issued := issued st |}).
Proof.
  unfold load_config, bind, call, try_except, call_may_fail.
  destruct (os_path_exists H path (now st)) as [[|] w1]; simpl; [|reflexivity].
  destruct (json_load_path H path w1) as [[[cls msg]|v] w2]; simpl;
    [reflexivity|].
  destruct v; reflexivity.
Qed.

(** [load_config] always returns a configuration, prints nothing and runs
    no command. *)
Lemma load_config_total (path : string) (st : state H) :
  exists cfg st',
    load_config path st = (Ok cfg, st') /\
    printed st' = printed st /\ issued st' = issued st.
Proof.
  pose proof (load_config_cases path st) as C.
  destruct (os_path_exists H path (now st)) as [[|] w1].
  - destruct (json_load_path H path w1) as [[[cls msg]|v] w2].
    + eexists _, _. split; [exact C|]. auto.
    + destruct v; eexists _, _; (split; [exact C|]); auto.
  - eexists _, _. split; [exact C|]. auto.
Qed.

Lemma run_unfold (argv : list string) (w : world H) :
  run argv w
  = let (r, st) := deploy (deployer_of argv w) (snd (resolve argv w)) in
    (exit_status r, st).
Proof.
  unfold run, main, init, deployer_of, resolve, bind.
  destruct (load_config_total (path_of argv) (initial w))
    as (cfg & st' & -> & _). reflexivity.
Qed.

Lemma resolve_quiet (argv : list string) (w : world H) :
  printed (snd (resolve argv w)) = [] /\ issued (snd (resolve argv w)) = [].
Proof.
  unfold resolve.
  destruct (load_config_total (path_of argv) (initial w))
    as (cfg & st' & -> & P & I). simpl. auto.
Qed.

(** One run of the script, from any world. *)
Lemma run_outcome (argv : list string) (w : world H) :
  let self := deployer_of argv w in
  let n := List.length (model_items self) in
  exists body last,
    printed (snd (run argv w)) = body ++ [last] /\
    reports body /\
    prefix_of (progress_values body) (timeline n) /\
    (forall c, In c (issued (snd (run argv w))) -> failed_pull c ->
       (exists pre, issued (snd (run argv w)) = pre ++ [c]) /\
       fst (run argv w) = 1 /\
       exists t, last = error_line "Ошибка загрузки моделей" t) /\
    ((fst (run argv w) = 0 /\
      stages_succeed self (snd (resolve argv w)) /\
      last = complete_line self /\
      progress_values body = timeline n) \/
     (fst (run argv w) = 1 /\
      ~ stages_succeed self (snd (resolve argv w)) /\
      exists message t, last = error_line message t)).
Proof.
  intros self n. rewrite run_unfold. fold self.
  destruct (resolve_quiet argv w) as [P0 I0].
  destruct (deploy_outcome self (snd (resolve argv w)))
    as (body & last & cmds & [P I] & Rb & Pb & FF & R).
  destruct (deploy self (snd (resolve argv w))) as [r st]. simpl in *.
  rewrite P0 in P. rewrite I0 in I. simpl in P, I. subst cmds.
  exists body, last. split; [assumption|]. split; [assumption|].
  split; [assumption|]. split.
  - intros c Hin Hf. destruct (FF c Hin Hf) as (Hpre & -> & Ht). auto.
  - destruct R as [(-> & S & L & Pv)|(-> & S & L)]; [left|right]; auto.
Qed.

End Run.

(** * The claims *)

Section Claims.

Context {H : Host}.

Lemma has_type_unique (t t' : string) (line : value) :
  has_type t line = true -> has_type t' line = true -> t = t'.
Proof.
  unfold has_type. destruct (type_of line) as [x|]; [|discriminate].
  intros E1 E2. apply String.eqb_eq in E1, E2. congruence.
Qed.

Lemma progress_has_type (line : value) (p : Z) :
  progress_of line = Some p -> has_type "progress" line = true.
Proof.
  destruct line; try discriminate. unfold progress_of.
  now destruct (has_type "progress" (VDict d)).
Qed.

Lemma level_has_type (line : value) (l : string) :
  level_of line = Some l -> has_type "log" line = true.
Proof.
  destruct line; try discriminate. unfold level_of.
  now destruct (has_type "log" (VDict d)).
Qed.

Lemma report_not_terminal (line : value) :
  is_report line = true -> is_terminal line = false.
Proof.
  unfold is_report, is_progress, is_log, is_terminal. intros R.
  assert (T : has_type "progress" line = true \/ has_type "log" line = true).
  { destruct (progress_of line) eqn:P; [left; eapply progress_has_type; eauto|].
    destruct (level_of line) eqn:L; [right; eapply level_has_type; eauto|].
    discriminate. }
  destruct (has_type "complete" line) eqn:C;
    [destruct T as [T|T]; pose proof (has_type_unique _ _ _ T C); discriminate|].
  destruct (has_type "error" line) eqn:E;
    [destruct T as [T|T]; pose proof (has_type_unique _ _ _ T E); discriminate|].
  reflexivity.
Qed.

Lemma terminal_no_progress (line : value) :
  is_terminal line = true -> progress_of line = None.
Proof.
  intros T. destruct (progress_of line) eqn:P; [|reflexivity].
  assert (R : is_report line = true)
    by (unfold is_report, is_progress; now rewrite P).
  apply report_not_terminal in R. congruence.
Qed.

(** C1.  Every call of [deploy], and so every run of the script, prints
    progress and log lines followed by exactly one terminal line, of type
    [complete] or [error]; none of the lines before it is terminal and
    nothing follows it. *)
Theorem output_is_reports_then_one_terminal_line :
  (forall (self : LLMServerDeployer) (st : state H),
      exists body last,
        printed (snd (deploy self st)) = printed st ++ body ++ [last] /\
        Forall (fun l => is_report l = true /\ is_terminal l = false) body /\
        is_terminal last = true) /\
  (forall (argv : list string) (w : world H),
      exists body last,
        printed (snd (run argv w)) = body ++ [last] /\
        Forall (fun l => is_report l = true /\ is_terminal l = false) body /\
        is_terminal last = true).
Proof.
  split.
  - intros self st.
    destruct (deploy_outcome self st)
      as (body & last & cmds & [P _] & Rb & _ & _ & R).
    exists body, last. split; [exact P|]. split.
    + eapply Forall_impl; [|exact Rb]. simpl.
      intros l Hl. split; [exact Hl|now apply report_not_terminal].
    + destruct R as [(_ & _ & -> & _)|(_ & _ & m & t & ->)]; reflexivity.
  - intros argv w.
    destruct (run_outcome argv w) as (body & last & P & Rb & _ & _ & R).
    exists body, last. split; [exact P|]. split.
    + eapply Forall_impl; [|exact Rb]. simpl.
      intros l Hl. split; [exact Hl|now apply report_not_terminal].
    + destruct R as [(_ & _ & -> & _)|(_ & _ & m & t & ->)]; reflexivity.
Qed.


(** C8.  In every run, successful or not, the progress values printed are
    non-decreasing and lie within [0, 100]; in a successful run they are
    the whole timeline; and the value announced for model [i] of [n] lies
    within [60, 90]. *)
Theorem progress_is_monotone_and_bounded :
  (forall (argv : list string) (w : world H),
      let ps := progress_values (printed (snd (run argv w))) in
      Sorted Z.le ps /\
      Forall (fun p => 0 <= p <= 100) ps /\
      (fst (run argv w) = 0 ->
       ps = timeline (List.length (model_items (deployer_of argv w))))) /\
  (forall n i : Z, 0 <= i < n -> 60 <= model_progress n i <= 90).
Proof.
  split; [|apply model_progress_bounds].
  intros argv w ps.
  destruct (run_outcome argv w) as (body & last & P & _ & Pre & _ & R).
  assert (E : ps = progress_values body).
  { unfold ps. rewrite P, progress_values_app. simpl.
    rewrite terminal_no_progress; [apply app_nil_r|].
    destruct R as [(_ & _ & -> & _)|(_ & _ & m & t & ->)]; reflexivity. }
  rewrite E. split; [|split].
  - apply StronglySorted_Sorted.
    eapply prefix_sorted; [exact Pre|apply timeline_sorted].
  - eapply prefix_Forall; [exact Pre|apply timeline_bounds].
  - intros E0. destruct R as [(_ & _ & _ & Pv)|(E1 & _)]; [exact Pv|].
    rewrite E1 in E0. discriminate.
Qed.

(** C3.  When the configuration file exists and parses as a JSON object,
    [load_config] returns the defaults overlaid with it: a key of the file
    has the file's value, any other key keeps its default value; the six
    default keys stay in place and the new keys of the file follow in the
    file's order.  Nothing is printed or logged. *)
Theorem load_config_overlays_defaults
    (path : string) (st : state H) (overlay : dict) (w1 w2 : world H) :
  os_path_exists H path (now st) = (true, w1) ->
  json_load_path H path w1 = (inr (VDict overlay), w2) ->
  NoDup (keys overlay) ->
  exists cfg st',
    load_config path st = (Ok cfg, st') /\
    (forall k,
        dict_get cfg k
        = match dict_get overlay k with
          | Some v => Some v
          | None => dict_get default_config k
          end) /\
    keys cfg
    = keys default_config
        ++ filter (fun k => negb (has_key default_config k)) (keys overlay) /\
    printed st' = printed st /\ logged st' = logged st.
Proof.
  intros E1 E2 Hn. pose proof (load_config_cases path st) as C.
  rewrite E1, E2 in C. eexists _, _. split; [exact C|].
  destruct (dict_merge_default overlay Hn) as [G K]. simpl. auto.
Qed.

(** C4, amended.  When the configuration file exists but loading it
    fails, [load_config] hands one warning to the [logging] module,
    prints nothing to standard output, returns the defaults, and the
    script goes on to deploy with them. *)
Theorem load_config_falls_back_to_defaults
    (argv : list string) (w w1 w2 : world H) (cls msg : string) :
  os_path_exists H (path_of argv) w = (true, w1) ->
  json_load_path H (path_of argv) w1 = (inl (cls, msg), w2) ->
  let st' :=
    {| now := w2; printed := [];
       logged := [("WARNING",
                   ("Ошибка загрузки конфига: " ++ msg
                      ++ ". Используем дефолтный.")%string)];
       issued := [] |} in
  let self := {| config_path := path_of argv; config := default_config |} in
  load_config (path_of argv) (initial w) = (Ok default_config, st') /\
  run argv w = (exit_status (fst (deploy self st')), snd (deploy self st')).
Proof.
  intros E1 E2 st' self.
  assert (C : load_config (path_of argv) (initial w)
              = (Ok default_config, st')).
  { pose proof (load_config_cases (path_of argv) (initial w)) as C.
    change (now (initial w)) with w in C. rewrite E1, E2 in C.
    rewrite C. reflexivity. }
  split; [exact C|].
  unfold run, main, init, bind. rewrite C. unfold ret. fold self.
  now destruct (deploy self st').
Qed.

Lemma completed_returncode (command : string) (check : bool) (a : answer) res :
  completed command check a = Ok res ->
  exited_zero a = (returncode res =? 0).
Proof.
  destruct a as [[cls msg]|[[status out] err]]; simpl; [discriminate|].
  destruct (check && negb (status =? 0)); [discriminate|].
  intros E. inversion E. reflexivity.
Qed.

Lemma completed_unchecked_raise (command : string) (a : answer) e :
  completed command false a = Raise e -> exited_zero a = false.
Proof.
  destruct a as [[cls msg]|[[status out] err]]; simpl;
    [reflexivity|discriminate].
Qed.

(** C5.  [run_command] gives the shell the command it was given and
    returns or raises what [subprocess.run] makes of the answer: on a
    non-zero exit status, with [check] a [CalledProcessError] holding the
    command, the status and both captured streams, without [check] the
    completed process with that status. *)
Theorem run_command_raises_or_returns :
  (forall (command : string) (check : bool) (st : state H),
      exists a,
        issued (snd (run_command command check st))
        = issued st ++ [(command, a)] /\
        fst (run_command command check st) = completed command check a) /\
  (forall (command : string) (status : Z) (out err : string),
      status <> 0 ->
      completed command true (inr (status, out, err))
      = Raise (CalledProcessError command status out err) /\
      completed command false (inr (status, out, err))
      = Ok {| args := command; returncode := status;
              stdout := out; stderr := err |}).
Proof.
  split.
  - intros command check st.
    destruct (emits_run_command command check st)
      as (_ & ls & cs & [_ I] & _ & a & -> & E).
    exists a. auto.
  - intros command status out err Hs. simpl.
    apply Z.eqb_neq in Hs. now rewrite Hs.
Qed.

(** The first command of [install_ollama] asks for the version; when it
    exits with status 0 it is the only command, and the result is
    [True]. *)
Lemma emits_install_ollama (self : LLMServerDeployer) :
  emits (install_ollama self : M H bool)
    (fun r ls cs =>
       exists a rest,
         cs = ("ollama --version", a) :: rest /\
         (exited_zero a = true -> rest = [] /\ r = Ok true)).
Proof.
  unfold install_ollama. eapply emits_weaken.
  - emits_rules.
  - cbv beta. intros r ls cs Hx HR. break.
    all: simpl; eexists _, _; (split; [reflexivity|]).
    all: intros Z0.
    all: repeat match goal with
           | E : Ok _ = completed _ _ _ |- _ =>
               symmetry in E; pose proof (completed_returncode _ _ _ _ E);
               clear E
           | E : Raise _ = completed _ false _ |- _ =>
               symmetry in E;
               pose proof (completed_unchecked_raise _ _ _ E); clear E
           end.
    all: try congruence.
    all: auto.
Qed.

(** C6.  When the version command with which [install_ollama] begins exits
    with status 0, [install_ollama] issues no other command and returns
    [True]. *)
Theorem install_ollama_skips_when_installed
    (self : LLMServerDeployer) (st : state H)
    (a : answer) (rest : list (string * answer)) :
  issued (snd (install_ollama self st))
  = issued st ++ ("ollama --version", a) :: rest ->
  exited_zero a = true ->
  rest = [] /\ fst (install_ollama self st) = Ok true.
Proof.
  intros I Z0.
  destruct (emits_install_ollama self st)
    as (_ & ls & cs & [_ I'] & a' & rest' & -> & K).
  rewrite I' in I. apply app_inv_head in I. inversion I; subst.
  now apply K.
Qed.

(** C7.  Fail-fast.  The commands of [download_models] are the pulls of the
    first configured models, in order; a pull among them that did not exit
    with status 0 is the last of them, and [download_models] returns
    [False].  In a run of the script such a pull is the last command
    issued, the last line is the model-download error and the exit status
    is 1. *)
Theorem download_models_is_fail_fast :
  (forall (self : LLMServerDeployer) (st : state H)
          (cs : list (string * answer)) (c : string * answer),
      issued (snd (download_models self st)) = issued st ++ cs ->
      In c cs -> exited_zero (snd c) = false ->
      fst (download_models self st) = Ok false /\
      (exists pre, cs = pre ++ [c]) /\
      map fst cs
      = map (pull_command H) (firstn (List.length cs) (model_items self))) /\
  (forall (argv : list string) (w : world H) (c : string * answer),
      In c (issued (snd (run argv w))) -> failed_pull c ->
      (exists pre, issued (snd (run argv w)) = pre ++ [c]) /\
      fst (run argv w) = 1 /\
      exists body t,
        printed (snd (run argv w))
        = body ++ [error_line "Ошибка загрузки моделей" t]).
Proof.
  split.
  - intros self st cs c I Hin Hz.
    destruct (emits_download_models self st)
      as (_ & ls & cs' & [_ I'] & line & rest & _ & _ & R).
    rewrite I' in I. apply app_inv_head in I. subst cs'.
    destruct R as [(_ & -> & _)|T]; [destruct Hin|].
    destruct (turns_fail_fast _ _ _ _ _ _ _ T Hin Hz) as (E & Hpre).
    destruct (turns_commands _ _ _ _ _ _ T) as (Hm & _). auto.
  - intros argv w c Hin Hf.
    destruct (run_outcome argv w) as (body & last & P & _ & _ & FF & _).
    destruct (FF c Hin Hf) as (Hpre & E & t & ->). eauto.
Qed.



End Claims.

(** * Runs on scripted hosts *)

Lemma NoDup_overlay_B : NoDup (keys overlay_B).
Proof.
  repeat (constructor; [simpl; intuition discriminate|]). constructor.
Qed.

Lemma load_config_overlays_defaults_witness :
  os_path_exists host_B "llm_config.json" (now (@initial host_B O))
  = (true, O) /\
  json_load_path host_B "llm_config.json" O = (inr (VDict overlay_B), O) /\
  NoDup (keys overlay_B) /\
  exists cfg st',
    @load_config host_B "llm_config.json" (@initial host_B O) = (Ok cfg, st') /\
    (forall k,
        dict_get cfg k
        = match dict_get overlay_B k with
          | Some v => Some v
          | None => dict_get default_config k
          end) /\
    keys cfg
    = keys default_config
        ++ filter (fun k => negb (has_key default_config k)) (keys overlay_B) /\
    printed st' = printed (@initial host_B O) /\
    logged st' = logged (@initial host_B O).
Proof.
  split; [reflexivity|]. split; [reflexivity|].
  split; [exact NoDup_overlay_B|].
  apply (@load_config_overlays_defaults host_B "llm_config.json"
           (@initial host_B O) overlay_B O O);
    [reflexivity|reflexivity|exact NoDup_overlay_B].
Defined.

Lemma load_config_falls_back_to_defaults_witness :
  os_path_exists host_malformed (path_of argv0) O = (true, O) /\
  json_load_path host_malformed (path_of argv0) O
  = (inl ("JSONDecodeError", "Expecting value: line 1 column 1 (char 0)"), O) /\
  @load_config host_malformed (path_of argv0) (@initial host_malformed O)
  = (Ok default_config,
     @Build_state host_malformed O []
       [("WARNING",
         "Ошибка загрузки конфига: Expecting value: line 1 column 1 (char 0). Используем дефолтный."%string)]
       []).
Proof.
  split; [reflexivity|]. split; [reflexivity|].
  apply (@load_config_falls_back_to_defaults host_malformed argv0 O O O
           "JSONDecodeError" "Expecting value: line 1 column 1 (char 0)");
    reflexivity.
Defined.

(** C4 as stated fails: on a host whose configuration file is malformed
    and whose commands print nothing, the warning goes to the [logging]
    module and no line of the output is a warning-level log line, although
    the run goes on and succeeds with the defaults. *)
Lemma malformed_config_prints_no_warning :
  let out := @run host_malformed argv0 O in
  fst out = 0 /\
  List.length (logged (snd out)) = 1%nat /\
  existsb is_warning_log (printed (snd out)) = false /\
  config_of (last (printed (snd out)) VNone) = Some default_config.
Proof. vm_compute. repeat split. Qed.

Lemma run_command_raises_or_returns_witness :
  1 <> 0 /\
  completed "ollama pull a" true (inr (1, "out", "err"))
  = Raise (CalledProcessError "ollama pull a" 1 "out" "err") /\
  completed "ollama pull a" false (inr (1, "out", "err"))
  = Ok {| args := "ollama pull a"; returncode := 1;
          stdout := "out"; stderr := "err" |}.
Proof.
  split; [discriminate|].
  apply (proj2 (@run_command_raises_or_returns host_plain)). discriminate.
Defined.

Lemma install_ollama_skips_when_installed_witness :
  issued (snd (@install_ollama host_plain plain_deployer (@initial host_plain O)))
  = issued (@initial host_plain O)
      ++ ("ollama --version", inr no_output) :: [] /\
  exited_zero (inr no_output) = true /\
  @nil (string * answer) = [] /\
  fst (@install_ollama host_plain plain_deployer (@initial host_plain O)) = Ok true.
Proof.
  split; [reflexivity|]. split; [reflexivity|].
  apply (@install_ollama_skips_when_installed host_plain plain_deployer
           (@initial host_plain O) (inr no_output) []); reflexivity.
Defined.

Lemma download_models_is_fail_fast_witness :
  In failed_b (issued (snd (@run host_second_pull_fails argv0 O))) /\
  failed_pull failed_b /\
  (exists pre,
      issued (snd (@run host_second_pull_fails argv0 O)) = pre ++ [failed_b]) /\
  fst (@run host_second_pull_fails argv0 O) = 1 /\
  exists body t,
    printed (snd (@run host_second_pull_fails argv0 O))
    = body ++ [error_line "Ошибка загрузки моделей" t].
Proof.
  assert (Hin : In failed_b (issued (snd (@run host_second_pull_fails argv0 O)))).
  { vm_compute. repeat (first [left; reflexivity|right]). }
  assert (Hf : failed_pull failed_b) by (split; reflexivity).
  split; [exact Hin|]. split; [exact Hf|].
  exact (proj2 (@download_models_is_fail_fast host_second_pull_fails)
           argv0 O failed_b Hin Hf).
Defined.

Lemma progress_is_monotone_and_bounded_witness :
  fst (@run host_B argv0 O) = 0 /\
  progress_values (printed (snd (@run host_B argv0 O)))
  = [0; 5; 20; 40; 60; 75; 90; 95; 100] /\
  0 <= 1 < 2 /\
  60 <= model_progress 2 1 <= 90.
Proof.
  assert (E : fst (@run host_B argv0 O) = 0) by (vm_compute; reflexivity).
  split; [exact E|]. split.
  - rewrite (proj2 (proj2 (proj1 (@progress_is_monotone_and_bounded host_B)
                             argv0 O)) E).
    vm_compute. reflexivity.
  - split; [lia|].
    apply (proj2 (@progress_is_monotone_and_bounded host_B)). lia.
Defined.




(** * Further properties of the script *)

(** ** Resolving the configuration *)

Section Config.

Context {H : Host}.

Lemma keys_set_incl (d : dict) (k : string) (v : value) (q : string) :
  In q (keys d) -> In q (keys (dict_set d k v)).
Proof.
  intros Hq. rewrite keys_set.
  destruct (has_key d k); [assumption|apply in_or_app; now left].
Qed.

Lemma has_key_false (d : dict) (k : string) :
  has_key d k = false -> ~ In k (keys d).
Proof.
  unfold has_key. intros E Hin.
  assert (T : existsb (String.eqb k) (keys d) = true).
  { apply existsb_exists. exists k. split; [assumption|apply String.eqb_refl]. }
  congruence.
Qed.

Lemma NoDup_keys_set (d : dict) (k : string) (v : value) :
  NoDup (keys d) -> NoDup (keys (dict_set d k v)).
Proof.
  intros Hn. rewrite keys_set. destruct (has_key d k) eqn:E; [assumption|].
  apply NoDup_app; [assumption|repeat constructor; simpl; tauto|].
  intros q Hq [E'|[]]. subst q. exact (has_key_false d k E Hq).
Qed.

Lemma keys_update_incl (other d : dict) (q : string) :
  In q (keys d) -> In q (keys (dict_update d other)).
Proof.
  unfold dict_update. revert d.
  induction other as [|[k v] other IH]; intros d Hq; simpl; [assumption|].
  apply IH. now apply keys_set_incl.
Qed.

Lemma NoDup_keys_update (other d : dict) :
  NoDup (keys d) -> NoDup (keys (dict_update d other)).
Proof.
  unfold dict_update. revert d.
  induction other as [|[k v] other IH]; intros d Hn; simpl; [assumption|].
  apply IH. now apply NoDup_keys_set.
Qed.

Lemma In_keys_dict_get (d : dict) (k : string) :
  In k (keys d) -> exists v, dict_get d k = Some v.
Proof.
  induction d as [|[k' v'] d IH]; simpl; [tauto|]. intros Hin.
  destruct (String.eqb_spec k k') as [->|Hk]; [eauto|].
  destruct Hin as [E|Hin]; [congruence|auto].
Qed.

Lemma NoDup_keys_default : NoDup (keys default_config).
Proof.
  repeat (constructor; [simpl; intuition discriminate|]). constructor.
Qed.

(** X1.  Whatever the host answers, [load_config] returns a configuration,
    never raises, prints nothing and runs no command; the configuration
    has each key once and holds a value for each of the six default keys,
    so that no later subscript of the configuration by a default key can
    raise [KeyError]. *)
Theorem load_config_always_resolves (path : string) (st : state H) :
  exists cfg st',
    load_config path st = (Ok cfg, st') /\
    printed st' = printed st /\ issued st' = issued st /\
    NoDup (keys cfg) /\
    forall k, In k (keys default_config) -> exists v, dict_get cfg k = Some v.
Proof.
  pose proof (load_config_cases path st) as C.
  assert (D : NoDup (keys default_config) /\
              forall k, In k (keys default_config) ->
                        exists v, dict_get default_config k = Some v).
  { split; [apply NoDup_keys_default|apply In_keys_dict_get]. }
  destruct (os_path_exists H path (now st)) as [[|] w1].
  - destruct (json_load_path H path w1) as [[[cls msg]|v] w2].
    + eexists _, _. split; [exact C|]. simpl. tauto.
    + destruct v; try (eexists _, _; split; [exact C|]; simpl; tauto).
      eexists _, _. split; [exact C|]. simpl.
      split; [reflexivity|]. split; [reflexivity|].
      unfold dict_merge. rewrite default_config_update. split.
      * apply NoDup_keys_update, NoDup_keys_default.
      * intros k Hk. apply In_keys_dict_get.
        now apply keys_update_incl.
  - eexists _, _. split; [exact C|]. simpl. tauto.
Qed.

(** X2.  When [os.path.exists] says that there is no configuration file,
    [load_config] returns the defaults without opening anything: the
    world is the one [os.path.exists] left, and nothing is printed or
    logged. *)
Theorem load_config_without_file
    (path : string) (st : state H) (w1 : world H) :
  os_path_exists H path (now st) = (false, w1) ->
  load_config path st
  = (Ok default_config,
     {| now := w1; printed := printed st; logged := logged st;
        issued := issued st |}).
Proof.
  intros E. pose proof (load_config_cases path st) as C.
  now rewrite E in C.
Qed.

(** X3.  When the configuration file holds valid JSON that is not an
    object (an array, a string, a number, a boolean or null),
    [load_config] does not take it for a configuration: it returns the
    defaults, and the one record it hands to the [logging] module says
    that the value is not a mapping. *)
Theorem load_config_rejects_non_object
    (path : string) (st : state H) (v : value) (w1 w2 : world H) :
  os_path_exists H path (now st) = (true, w1) ->
  json_load_path H path w1 = (inr v, w2) ->
  (forall d, v <> VDict d) ->
  load_config path st
  = (Ok default_config,
     {| now := w2; printed := printed st;
        logged := logged st ++
          [("WARNING",
            ("Ошибка загрузки конфига: '" ++ type_name v
               ++ "' object is not a mapping"
               ++ ". Используем дефолтный.")%string)];
        issued := issued st |}).
Proof.
  intros E1 E2 Hv. pose proof (load_config_cases path st) as C.
  rewrite E1, E2 in C. destruct v; try exact C.
  now destruct (Hv d).
Qed.

End Config.

(** ** The command runner *)

Section RunnerLogs.

Context {H : Host}.

(** X4.  What [run_command] prints.  The command is announced at level
    [info] before it is run.  When the run raises [CalledProcessError]
    (a non-zero exit status under [check]), one [error] line follows and
    the captured output is not printed.  When the host cannot run the
    command at all, nothing follows, not even an error line.  Otherwise
    the captured standard output, when not empty, follows at level
    [info] and the captured standard error, when not empty, at level
    [warn]. *)
Theorem run_command_log_lines (command : string) (check : bool) (st : state H) :
  exists a lines,
    issued (snd (run_command command check st)) = issued st ++ [(command, a)] /\
    printed (snd (run_command command check st)) = printed st ++ lines /\
    map log_of lines
    = Some ("info", "Выполнение команды: " ++ command)%string
      :: match a with
         | inl _ => []
         | inr (status, out, err) =>
             if check && negb (status =? 0) then
               [Some ("error",
                      "Ошибка выполнения команды: "
                        ++ str_CalledProcessError H command status)%string]
             else
               (if nonempty out
                then [Some ("info", "STDOUT: " ++ out)%string] else [])
               ++ (if nonempty err
                   then [Some ("warn", "STDERR: " ++ err)%string] else [])
         end.
Proof.
  unfold run_command, send_log, subprocess_run, bind, call, print, flush, ret,
    try_except_CalledProcessError, raise.
  destruct (time_time H (now st)) as [t0 w0]. cbn [now printed issued logged fst snd].
  destruct (shell H command w0) as [a w1]. exists a.
  destruct a as [[cls msg]|[[status out] err]]; cbn [completed].
  - cbn. eexists [_]. repeat split; rewrite ?app_nil_r; reflexivity.
  - destruct (check && negb (status =? 0)); cbn.
    + destruct (time_time H w1) as [t1 w2]. cbn.
      eexists [_; _]. repeat split; rewrite <- ?app_assoc; reflexivity.
    + destruct (nonempty out) eqn:Eo.
      * cbn. destruct (time_time H w1) as [t1 w2]. cbn.
        destruct (nonempty err) eqn:Ee.
        -- cbn. destruct (time_time H w2) as [t2 w3]. cbn.
           eexists [_; _; _]. repeat split; rewrite <- ?app_assoc; reflexivity.
        -- cbn. eexists [_; _]. repeat split; rewrite <- ?app_assoc; reflexivity.
      * cbn. destruct (nonempty err) eqn:Ee.
        -- cbn. destruct (time_time H w1) as [t1 w2]. cbn.
           eexists [_; _]. repeat split; rewrite <- ?app_assoc; reflexivity.
        -- cbn. eexists [_]. repeat split; reflexivity.
Qed.

End RunnerLogs.

(** ** The stages, command by command *)

(** Turns what is known of the results of [subprocess.run] into what is
    known of the exit statuses. *)
Ltac exit_facts :=
  repeat match goal with
    | E : Ok _ = completed _ _ _ |- _ => symmetry in E
    | E : Raise _ = completed _ _ _ |- _ => symmetry in E
    | E : completed _ true ?a = Ok _ |- _ =>
        pose proof (completed_check_ok _ _ _ E); clear E
    | E : completed _ true ?a = Raise _ |- _ =>
        pose proof (completed_check_raise _ _ _ E); clear E
    end.

(** Closes a goal [chain cmds trace r] whose exit statuses are known. *)
Ltac solve_chain :=
  repeat (cbn [chain app];
          first
            [ split; reflexivity
            | eexists _, _; split; [reflexivity|];
              match goal with
              | E : exited_zero ?a = _ |- context [exited_zero ?a] => rewrite E
              end ]).

Section StageTraces.

Context {H : Host}.

Lemma completed_ok_inv (command : string) (check : bool) (a : answer) res :
  completed command check a = Ok res ->
  a = inr (returncode res, stdout res, stderr res).
Proof.
  destruct a as [[cls msg]|[[status out] err]]; simpl; [discriminate|].
  destruct (check && negb (status =? 0)); [discriminate|].
  intros E. inversion E. reflexivity.
Qed.

Lemma emits_send_log_message (level message : string) :
  emits (send_log level message : M H unit)
    (fun r ls cs =>
       r = Ok tt /\ cs = [] /\
       exists line, ls = [line] /\ log_of line = Some (level, message)).
Proof.
  intros st. unfold send_log, bind, call, print, flush, ret.
  destruct (time_time H (now st)) as [t w]; simpl.
  split; [exact I|]. eexists [_], [].
  split; [split; simpl; [reflexivity|now rewrite app_nil_r]|].
  repeat split. eexists; split; reflexivity.
Qed.

(** X5.  [check_system_requirements] never raises.  When the interpreter
    cannot report its version it returns [False] without running any
    command.  Otherwise it asks for the version of curl; when that fails
    it tries once to install curl with the package manager and returns
    whether the installation exited with status 0, without asking for the
    version of curl again. *)
Theorem check_system_requirements_commands
    (self : LLMServerDeployer) (st : state H) :
  exists cs,
    issued (snd (check_system_requirements self st)) = issued st ++ cs /\
    ((cs = [] /\ fst (check_system_requirements self st) = Ok false) \/
     exists a,
       (exited_zero a = true /\
        cs = [("curl --version"%string, a)] /\
        fst (check_system_requirements self st) = Ok true) \/
       (exited_zero a = false /\
        exists b,
          cs = [ ("curl --version"%string, a);
                 ("sudo apt-get update && sudo apt-get install -y curl"%string,
                  b) ] /\
          fst (check_system_requirements self st) = Ok (exited_zero b))).
Proof.
  assert (E : emits (check_system_requirements self : M H bool)
                (fun r ls cs =>
                   (cs = [] /\ r = Ok false) \/
                   exists a,
                     (exited_zero a = true /\
                      cs = [("curl --version"%string, a)] /\ r = Ok true) \/
                     (exited_zero a = false /\
                      exists b,
                        cs = [ ("curl --version"%string, a);
                               ("sudo apt-get update && sudo apt-get install -y curl"%string,
                                b) ] /\
                        r = Ok (exited_zero b)))).
  { unfold check_system_requirements. eapply emits_weaken.
    - emits_rules.
    - cbv beta. intros r ls cs Hx HR. break; exit_facts.
      all: repeat match goal with
             | E : negb ?b = _ |- _ =>
                 destruct b; simpl in E; try discriminate E; clear E
             end.
      all: cbn [app].
      all: first
             [ left; split; reflexivity
             | right; eexists; left;
               split; [eassumption|split; reflexivity]
             | right; eexists; right;
               split; [eassumption|];
               eexists; split; [reflexivity|];
               match goal with
               | E : exited_zero ?b = _ |- _ = Ok (exited_zero ?b) =>
                   now rewrite E
               end ]. }
  destruct (E st) as (_ & ls & cs & [_ I] & R). eauto.
Qed.

(** X7.  When the interpreter cannot report its own version, in the world
    the announcement of the stage leaves, [check_system_requirements]
    returns [False] and runs no command: curl is not even looked for. *)
Theorem check_without_python
    (self : LLMServerDeployer) (st : state H)
    (t : float) (w w' : world H) (cls msg : string) :
  time_time H (now st) = (t, w) ->
  check_output_python_version H w = (inl (cls, msg), w') ->
  fst (check_system_requirements self st) = Ok false /\
  issued (snd (check_system_requirements self st)) = issued st.
Proof.
  intros E1 E2.
  unfold check_system_requirements, send_progress, send_log, bind, call,
    print, flush, ret, try_except, call_may_fail.
  rewrite E1. cbn [now printed issued logged fst snd]. rewrite E2.
  cbn [now printed issued logged fst snd is_Exception].
  destruct (time_time H w') as [t1 w1]. cbn. auto.
Qed.

(** X6.  When the version command with which [install_ollama] begins does
    not exit with status 0, [install_ollama] runs the vendor's install
    script and then asks for the version again, both checked: it returns
    [True] when both exit with status 0, and does not ask again after a
    failed script.  When the host cannot run the version command at all,
    it returns [False] at once.  It never raises. *)
Theorem install_ollama_commands (self : LLMServerDeployer) (st : state H) :
  exists a rest,
    issued (snd (install_ollama self st))
    = issued st ++ ("ollama --version"%string, a) :: rest /\
    match a with
    | inl _ => rest = [] /\ fst (install_ollama self st) = Ok false
    | inr (status, _, _) =>
        if status =? 0 then
          rest = [] /\ fst (install_ollama self st) = Ok true
        else
          chain [ "curl -fsSL https://ollama.ai/install.sh | sh"%string;
                  "ollama --version"%string ]
                rest (fst (install_ollama self st))
    end.
Proof.
  assert (E : emits (install_ollama self : M H bool)
                (fun r ls cs =>
                   exists a rest,
                     cs = ("ollama --version"%string, a) :: rest /\
                     match a with
                     | inl _ => rest = [] /\ r = Ok false
                     | inr (status, _, _) =>
                         if status =? 0 then rest = [] /\ r = Ok true
                         else
                           chain [ "curl -fsSL https://ollama.ai/install.sh | sh"%string;
                                   "ollama --version"%string ] rest r
                     end)).
  { unfold install_ollama. eapply emits_weaken.
    - emits_rules.
    - cbv beta. intros r ls cs Hx HR. break.
      all: cbn [app]; eexists _, _; (split; [reflexivity|]).
      all: repeat match goal with
             | E : Ok ?res = completed _ false ?a |- _ =>
                 symmetry in E;
                 pose proof (completed_ok_inv _ _ _ _ E); clear E; subst a
             | E : Raise _ = completed _ false ?a |- _ =>
                 symmetry in E;
                 destruct a as [[? ?]|[[? ?] ?]]; [clear E|discriminate E]
             end.
      all: exit_facts.
      all: repeat match goal with
             | E : (?x =? 0) = _ |- context [?x =? 0] => rewrite E
             end.
      all: try solve [split; reflexivity].
      all: solve_chain. }
  destruct (E st) as (_ & ls & cs & [_ I] & a & rest & -> & R). eauto.
Qed.



(** X9.  [verify_installation] checks the API on [localhost] at the
    configured port and then lists the models, each command checked and
    the second run only after the first exited with status 0; when both
    did, it prints what the listing wrote to its standard output.
    Without a port in the configuration it runs nothing and returns
    [False].  It never raises. *)
Theorem verify_installation_commands (self : LLMServerDeployer) (st : state H) :
  exists cs lines,
    issued (snd (verify_installation self st)) = issued st ++ cs /\
    printed (snd (verify_installation self st)) = printed st ++ lines /\
    match dict_get (config self) "port" with
    | None => cs = [] /\ fst (verify_installation self st) = Ok false
    | Some port =>
        chain [ ("curl -f http://localhost:" ++ format H port ++ "/api/tags")%string;
                "ollama list"%string ]
              cs (fst (verify_installation self st)) /\
        (fst (verify_installation self st) = Ok true ->
         exists a status out err,
           cs = [ (("curl -f http://localhost:" ++ format H port
                      ++ "/api/tags")%string, a);
                  ("ollama list"%string, inr (status, out, err)) ] /\
           In (Some ("info"%string,
                     ("Установленные модели:
" ++ out)%string))
              (map log_of lines))
    end.
Proof.
  assert (E : emits (verify_installation self : M H bool)
                (fun r ls cs =>
                   match dict_get (config self) "port" with
                   | None => cs = [] /\ r = Ok false
                   | Some port =>
                       chain [ ("curl -f http://localhost:" ++ format H port
                                  ++ "/api/tags")%string;
                               "ollama list"%string ] cs r /\
                       (r = Ok true ->
                        exists a status out err,
                          cs = [ (("curl -f http://localhost:" ++ format H port
                                     ++ "/api/tags")%string, a);
                                 ("ollama list"%string, inr (status, out, err)) ] /\
                          In (Some ("info"%string,
                                    ("Установленные модели:
" ++ out)%string))
                             (map log_of ls))
                   end)).
  { unfold verify_installation. eapply emits_weaken.
    - eapply emits_bind; [apply emits_send_progress|intros ?].
      eapply emits_try.
      + eapply emits_bind; [apply emits_getitem|intros ?].
        eapply emits_bind; [apply emits_run_command|intros ?].
        eapply emits_bind; [apply emits_run_command|intros ?].
        eapply emits_bind; [apply emits_send_log_message|intros ?].
        emits_rules.
      + intros ? ?. emits_rules.
    - cbv beta. intros r ls cs Hx HR.
      destruct (dict_get (config self) "port") as [port|]; break.
      all: try solve [split; reflexivity].
      all: split; [exit_facts; solve [solve_chain]|].
      all: try discriminate.
      intros _.
      match goal with
      | E : Ok ?res = completed "ollama list" true ?b |- _ =>
          symmetry in E; rewrite (completed_ok_inv _ _ _ _ E)
      end.
      cbn [app]. eexists _, _, _, _. split; [reflexivity|].
      match goal with
      | E : log_of ?x = Some _ |- _ => rewrite <- E; apply in_map
      end.
      simpl. right. apply in_or_app; right. apply in_or_app; right.
      now left. }
  destruct (E st) as (_ & ls & cs & [P I] & R). eauto.
Qed.

End StageTraces.

(** ** Fetching the models, continued *)

Section FetchMore.

Context {H : Host}.

(** X10.  When [download_models] returns [True], it has pulled every
    configured model once, in the order of the configuration, and every
    pull exited with status 0.  A configuration whose models are a string
    or an object is looped over like a list: over its characters, or over
    its keys. *)
Theorem download_models_pulls_every_model
    (self : LLMServerDeployer) (st : state H) (cs : list (string * answer)) :
  issued (snd (download_models self st)) = issued st ++ cs ->
  fst (download_models self st) = Ok true ->
  map fst cs = map (pull_command H) (model_items self) /\
  Forall (fun c => exited_zero (snd c) = true) cs.
Proof.
  intros I E.
  destruct (emits_download_models self st)
    as (_ & ls & cs' & [_ I'] & line & rest & _ & _ & R).
  rewrite I' in I. apply app_inv_head in I. subst cs'.
  destruct R as [(_ & _ & _ & e & E')|T]; [congruence|].
  destruct (turns_commands _ _ _ _ _ _ T) as (Hm & Hr).
  destruct Hr as [(_ & Hl & Hz)|(E' & _)]; [|congruence].
  split; [|exact Hz]. rewrite Hm, Hl. now rewrite firstn_all.
Qed.

(** X11.  When the configured models are a number, a boolean or null,
    [download_models] raises the [TypeError] of the loop header: it has
    announced the stage, run no command and printed no error line of its
    own. *)
Theorem download_models_not_iterable
    (self : LLMServerDeployer) (st : state H) (v : value) :
  dict_get (config self) "models" = Some v ->
  (forall items, iter v <> inr items) ->
  fst (download_models self st)
  = Raise (TypeError ("'" ++ type_name v ++ "' object is not iterable")) /\
  issued (snd (download_models self st)) = issued st /\
  exists line,
    printed (snd (download_models self st)) = printed st ++ [line] /\
    progress_of line = Some 60.
Proof.
  intros Hm Hv.
  assert (Hi : iter v = inl (TypeError ("'" ++ type_name v
                                         ++ "' object is not iterable"))).
  { destruct v; try reflexivity; exfalso; eapply Hv; reflexivity. }
  unfold download_models, getitem, bind. rewrite Hm.
  destruct (emits_send_progress 60 "Загрузка моделей LLM" st)
    as (_ & ls & cs & [P I] & E & -> & line & -> & Hp).
  destruct (send_progress 60 _ st) as [r s1]. simpl in *. subst r.
  simpl. rewrite Hi. simpl. rewrite app_nil_r in I. eauto.
Qed.


End FetchMore.

(** ** The band of the models *)

Section Band.

(** X14.  The last of [n] models is announced at 90, whatever [n]; and as
    long as there are at most 30 models, each model is announced at a
    larger value than the one before it. *)
Theorem model_progress_fills_the_band :
  (forall n : Z, 0 < n -> model_progress n (n - 1) = 90) /\
  (forall n i : Z,
      0 < n <= 30 -> 0 <= i -> i + 1 < n ->
      model_progress n i < model_progress n (i + 1)).
Proof.
  split.
  - intros n Hn. rewrite model_progress_eq by lia.
    replace (30 * (n - 1 + 1)) with (30 * n) by lia.
    rewrite Z.div_mul by lia. reflexivity.
  - intros n i Hn Hi Hl. rewrite !model_progress_eq by lia.
    assert (30 * (i + 1) / n + 1 <= 30 * (i + 1 + 1) / n).
    { replace (30 * (i + 1) / n + 1) with ((30 * (i + 1) + 1 * n) / n)
        by (rewrite Z.div_add by lia; reflexivity).
      apply Z.div_le_mono; lia. }
    lia.
Qed.

End Band.

(** ** The orchestrator, stage by stage *)

Section DeployMore.

Context {H : Host}.

Lemma deploy_raises (self : LLMServerDeployer) (st s : state H) (e : exn) :
  deploy_steps self st = (Raise e, s) -> is_Exception e = true ->
  failed_at self st s (str_exn H e).
Proof.
  intros E Hx. unfold failed_at. rewrite deploy_unfold. unfold try_except.
  rewrite E, Hx.
  destruct (deploy_handler_run e s) as (t & s' & -> & P & I & _).
  exists t. simpl. auto.
Qed.

(** X12.  The error line names the first stage that fails, and nothing is
    run after it: when a stage returns [False] after the stages before it
    returned [True], [deploy] prints the error line with the message of
    that stage right after what the stage left, issues no further command
    and leaves through [sys.exit(1)].  When [download_models] raises
    instead, the message is that of the exception. *)
Theorem deploy_names_the_first_failing_stage
    (self : LLMServerDeployer) (st s0 : state H) :
  send_progress 0 "Начало развертывания LLM сервера" st = (Ok tt, s0) ->
  (forall s1,
      check_system_requirements self s0 = (Ok false, s1) ->
      failed_at self st s1 "Системные требования не выполнены") /\
  (forall s1 s2,
      check_system_requirements self s0 = (Ok true, s1) ->
      install_ollama self s1 = (Ok false, s2) ->
      failed_at self st s2 "Ошибка установки Ollama") /\
  (forall s1 s2 s3,
      check_system_requirements self s0 = (Ok true, s1) ->
      install_ollama self s1 = (Ok true, s2) ->
      start_ollama_service self s2 = (Ok false, s3) ->
      failed_at self st s3 "Ошибка запуска сервиса") /\
  (forall s1 s2 s3 s4,
      check_system_requirements self s0 = (Ok true, s1) ->
      install_ollama self s1 = (Ok true, s2) ->
      start_ollama_service self s2 = (Ok true, s3) ->
      download_models self s3 = (Ok false, s4) ->
      failed_at self st s4 "Ошибка загрузки моделей") /\
  (forall s1 s2 s3 s4 e,
      check_system_requirements self s0 = (Ok true, s1) ->
      install_ollama self s1 = (Ok true, s2) ->
      start_ollama_service self s2 = (Ok true, s3) ->
      download_models self s3 = (Raise e, s4) ->
      failed_at self st s4 (str_exn H e)) /\
  (forall s1 s2 s3 s4 s5,
      check_system_requirements self s0 = (Ok true, s1) ->
      install_ollama self s1 = (Ok true, s2) ->
      start_ollama_service self s2 = (Ok true, s3) ->
      download_models self s3 = (Ok true, s4) ->
      verify_installation self s4 = (Ok false, s5) ->
      failed_at self st s5 "Ошибка проверки установки").
Proof.
  intros T0.
  repeat split; intros.
  all: try (apply (deploy_raises self st _ (Exception _)); [|reflexivity];
            unfold deploy_steps, bind;
            repeat match goal with
              | E : _ = (_, _) |- _ => rewrite E; clear E; cbn [negb raise ret]
              end;
            reflexivity).
  apply deploy_raises.
  - unfold deploy_steps, bind.
    repeat match goal with
      | E : _ = (Ok _, _) |- _ => rewrite E; clear E; cbn [negb raise ret]
      end.
    match goal with E : download_models _ _ = _ |- _ => now rewrite E end.
  - match goal with
    | E : download_models self ?s = _ |- _ =>
        pose proof (proj1 (emits_download_models self s)) as X;
        rewrite E in X; exact X
    end.
Qed.



End DeployMore.

(** * More runs on scripted hosts *)

Lemma load_config_without_file_witness :
  os_path_exists host_plain "llm_config.json" (now (@initial host_plain O))
  = (false, O) /\
  @load_config host_plain "llm_config.json" (@initial host_plain O)
  = (Ok default_config, @initial host_plain O).
Proof.
  split; [reflexivity|].
  apply (@load_config_without_file host_plain "llm_config.json"
           (@initial host_plain O) O).
  reflexivity.
Defined.

Lemma load_config_rejects_non_object_witness :
  os_path_exists host_array "llm_config.json" (now (@initial host_array O))
  = (true, O) /\
  json_load_path host_array "llm_config.json" O
  = (inr (VList [VStr "llama2:7b"]), O) /\
  (forall d, VList [VStr "llama2:7b"] <> VDict d) /\
  @load_config host_array "llm_config.json" (@initial host_array O)
  = (Ok default_config,
     @Build_state host_array O []
       [("WARNING",
         "Ошибка загрузки конфига: 'list' object is not a mapping. Используем дефолтный."%string)]
       []).
Proof.
  split; [reflexivity|]. split; [reflexivity|].
  split; [discriminate|].
  apply (@load_config_rejects_non_object host_array "llm_config.json"
           (@initial host_array O) (VList [VStr "llama2:7b"]) O O);
    [reflexivity|reflexivity|discriminate].
Defined.

Lemma check_without_python_witness :
  time_time (without_python host_plain)
            (now (@initial (without_python host_plain) O))
  = (PrimFloat.zero, O) /\
  check_output_python_version (without_python host_plain) O
  = (inl ("FileNotFoundError", "[Errno 2] No such file or directory"), O) /\
  fst (@check_system_requirements (without_python host_plain) plain_deployer
         (@initial (without_python host_plain) O)) = Ok false /\
  issued (snd (@check_system_requirements (without_python host_plain)
                 plain_deployer (@initial (without_python host_plain) O)))
  = [].
Proof.
  split; [reflexivity|]. split; [reflexivity|].
  apply (@check_without_python (without_python host_plain) plain_deployer
           (@initial (without_python host_plain) O) PrimFloat.zero O O
           "FileNotFoundError" "[Errno 2] No such file or directory");
    reflexivity.
Defined.

Lemma download_models_pulls_every_model_witness :
  issued (snd (@download_models host_plain plain_deployer
                 (@initial host_plain O)))
  = issued (@initial host_plain O)
      ++ [("ollama pull llama2:7b", inr no_output)] /\
  fst (@download_models host_plain plain_deployer (@initial host_plain O))
  = Ok true /\
  map fst [("ollama pull llama2:7b", inr no_output : answer)]
  = map (pull_command host_plain) (model_items plain_deployer) /\
  Forall (fun c : string * answer => exited_zero (snd c) = true)
         [("ollama pull llama2:7b", inr no_output)].
Proof.
  split; [reflexivity|]. split; [reflexivity|].
  apply (@download_models_pulls_every_model host_plain plain_deployer
           (@initial host_plain O)); reflexivity.
Defined.

Lemma download_models_not_iterable_witness :
  dict_get (config number_deployer) "models" = Some (VInt 5) /\
  (forall items, iter (VInt 5) <> inr items) /\
  fst (@download_models host_plain number_deployer (@initial host_plain O))
  = Raise (TypeError "'int' object is not iterable") /\
  issued (snd (@download_models host_plain number_deployer
                 (@initial host_plain O)))
  = issued (@initial host_plain O).
Proof.
  split; [reflexivity|]. split; [discriminate|].
  destruct (@download_models_not_iterable host_plain number_deployer
              (@initial host_plain O) (VInt 5)) as (E & I & _);
    [reflexivity|discriminate|].
  split; [exact E|exact I].
Defined.

Lemma deploy_names_the_first_failing_stage_witness :
  send_progress 0 "Начало развертывания LLM сервера"
    (snd (@resolve host_service_down argv0 O))
  = (Ok tt, down_after 0) /\
  check_system_requirements down_deployer (down_after 0)
  = (Ok true, down_after 1) /\
  install_ollama down_deployer (down_after 1) = (Ok true, down_after 2) /\
  start_ollama_service down_deployer (down_after 2)
  = (Ok false, down_after 3) /\
  failed_at down_deployer (snd (@resolve host_service_down argv0 O))
            (down_after 3) "Ошибка запуска сервиса".
Proof.
  assert (T0 : send_progress 0 "Начало развертывания LLM сервера"
                 (snd (@resolve host_service_down argv0 O))
               = (Ok tt, down_after 0)) by (vm_compute; reflexivity).
  assert (T1 : check_system_requirements down_deployer (down_after 0)
               = (Ok true, down_after 1)) by (vm_compute; reflexivity).
  assert (T2 : install_ollama down_deployer (down_after 1)
               = (Ok true, down_after 2)) by (vm_compute; reflexivity).
  assert (T3 : start_ollama_service down_deployer (down_after 2)
               = (Ok false, down_after 3)) by (vm_compute; reflexivity).
  repeat (split; [assumption|]).
  exact (proj1 (proj2 (proj2
           (@deploy_names_the_first_failing_stage host_service_down
              down_deployer (snd (@resolve host_service_down argv0 O))
              (down_after 0) T0)))
           (down_after 1) (down_after 2) (down_after 3) T1 T2 T3).
Defined.

Lemma model_progress_fills_the_band_witness :
  0 < 3 /\ model_progress 3 (3 - 1) = 90 /\
  0 < 3 <= 30 /\ 0 <= 0 /\ 0 + 1 < 3 /\
  model_progress 3 0 < model_progress 3 (0 + 1).
Proof.
  split; [lia|]. split; [apply (proj1 model_progress_fills_the_band); lia|].
  split; [lia|]. split; [lia|]. split; [lia|].
  apply (proj2 model_progress_fills_the_band); lia.
Defined.

(** The run of Scenario E of the specification: the service does not
    report an active state. *)
Example service_down_run :
  let out := @run host_service_down argv0 O in
  fst out = 1 /\
  last (printed (snd out)) VNone
  = error_line "Ошибка запуска сервиса" PrimFloat.zero /\
  last (issued (snd out)) (EmptyString, inr no_output)
  = ("sudo systemctl status ollama"%string, inr (1, EmptyString, EmptyString)) /\
  progress_values (printed (snd out)) = [0; 5; 20; 40].
Proof. vm_compute. repeat split. Qed.
